(** * wyoming-universal-stt: session handler, backends and factory

    A shallow embedding of the Python sources

      - [wyoming_universal_stt/handler.py]
      - [wyoming_universal_stt/backends/{base,factory,faster_whisper,
         mlx_whisper,openai_whisper_api}.py]
      - [wyoming_universal_stt/__main__.py]

    together with the properties the specification states about them.

    Conventions of the embedding.
      - A Python [str] is a list of Unicode code points ([str := list N]);
        [lit] turns a Rocq string literal into one.
      - A Python value that may be [None] (or an attribute that may be
        missing) is an [option].
      - A generator is its trace: the items it yields, followed by a normal
        end or by the exception that terminates it.
      - A call that may raise returns [result A := exn + A].
      - Logging has no effect on any value and is left out. *)

From Stdlib Require Import List NArith ZArith Bool String Ascii Lia.
From Stdlib Require Import Floats.PrimFloat.
Import ListNotations.

Set Implicit Arguments.
Open Scope string_scope.
Open Scope N_scope.
Open Scope list_scope.

(* ================================================================== *)
(** ** Python strings *)
(* ================================================================== *)

Module Py.

Definition str := list N.

(** A literal: each character of the Rocq string is the code point with
    the same number. *)
Fixpoint lit (s : string) : str :=
  match s with
  | EmptyString => []
  | String c s' => N_of_ascii c :: lit s'
  end.

Definition str_eqb (a b : str) : bool :=
  if list_eq_dec N.eq_dec a b then true else false.

(** Truthiness of a [str]: the empty string is false. *)
Definition truthy (s : str) : bool :=
  match s with [] => false | _ :: _ => true end.

(** Truthiness of an optional [str] ([None] is false). *)
Definition otruthy (o : option str) : bool :=
  match o with Some s => truthy s | None => false end.

(** [str.isspace] on one code point (CPython's [_PyUnicode_IsWhitespace]). *)
Definition isspace (c : N) : bool :=
  ((9 <=? c) && (c <=? 13)) || ((28 <=? c) && (c <=? 32))
  || (c =? 133) || (c =? 160) || (c =? 5760)
  || ((8192 <=? c) && (c <=? 8202))
  || (c =? 8232) || (c =? 8233) || (c =? 8239) || (c =? 8287)
  || (c =? 12288).

Fixpoint lstrip (s : str) : str :=
  match s with
  | [] => []
  | c :: s' => if isspace c then lstrip s' else s
  end.

Definition rstrip (s : str) : str := rev (lstrip (rev s)).

(** [s.strip()] *)
Definition strip (s : str) : str := rstrip (lstrip s).

(** [sep.join(l)] *)
Fixpoint join (sep : str) (l : list str) : str :=
  match l with
  | [] => []
  | [x] => x
  | x :: rest => x ++ sep ++ join sep rest
  end.

(** [s.startswith(p)] *)
Fixpoint startswith (s p : str) : bool :=
  match p, s with
  | [], _ => true
  | _ :: _, [] => false
  | a :: p', b :: s' => (a =? b) && startswith s' p'
  end.

(** [p in s] for strings: [p] occurs in [s] as a substring. *)
Fixpoint contains (s p : str) : bool :=
  startswith s p ||
  match s with
  | [] => false
  | _ :: s' => contains s' p
  end.

(** [s.lower()] on the ASCII letters; other code points are kept.  The
    strings lowered in this program are [platform.machine()] and
    [platform.system()]. *)
Definition lower_char (c : N) : N :=
  if (65 <=? c) && (c <=? 90) then c + 32 else c.

Definition lower (s : str) : str := map lower_char s.

(** [x in l] for a list of strings. *)
Definition in_list (x : str) (l : list str) : bool :=
  existsb (str_eqb x) l.

End Py.

Import Py.

(* ================================================================== *)
(** ** Exceptions, fallible calls, generators *)
(* ================================================================== *)

(** The exceptions that occur; every one is a subclass of [Exception]. *)
Inductive exn :=
| ImportError (msg : str)
| ValueError (msg : str)
| OSError (msg : str)
| AssertionError
| AttributeError (msg : str)
| IndexError (msg : str)
| WaveError (msg : str)      (* [wave.Error] *)
| StructError (msg : str)    (* [struct.error] *)
| EngineError (msg : str).   (* whatever a recognition engine raises *)

(** A call either raises or returns. *)
Definition result (A : Type) : Type := (exn + A)%type.

Abbreviation Raise := (@inl exn _).
Abbreviation Return := (@inr exn _).

(** A generator, by its trace: it yields [yielded] in order and then
    either stops ([raised = None]) or raises. *)
Record generator (A : Type) := Generator {
  yielded : list A;
  raised : option exn
}.

(* ================================================================== *)
(** ** Data: segments, audio files, protocol events, capability info *)
(* ================================================================== *)

(** A segment object as the handler sees it.  [None] stands for an
    attribute the object does not have (or that is [None]). *)
Record Segment := mkSegment {
  text : option str;
  seg_start : option float;
  seg_end : option float
}.

(** The part of [wave.Wave_write] that the handler drives.  A parameter
    is [None] until its setter has succeeded. *)
Record Wave_write := mkWave {
  _framerate : option Z;
  _sampwidth : option Z;
  _nchannels : option Z;
  _frames : list Byte.byte
}.

Record Attribution := mkAttribution {
  attr_name : str;
  attr_url : str
}.

Record AsrModel := mkAsrModel {
  am_name : str;
  am_description : str;
  am_attribution : Attribution;
  am_installed : bool;
  am_languages : list str;
  am_version : str
}.

Record AsrProgram := mkAsrProgram {
  ap_name : str;
  ap_description : str;
  ap_attribution : Attribution;
  ap_installed : bool;
  ap_version : str;
  ap_models : list AsrModel
}.

Record Info := mkInfo { asr : list AsrProgram }.

(** Wyoming events, incoming and outgoing, as a tagged union. *)
Inductive Event :=
| AudioChunk (rate width channels : Z) (audio : list Byte.byte)
| AudioStop
| Transcribe (language : option str)
| Describe
| Transcript (reply_text : str)
| InfoEvent (i : Info)
| OtherEvent (type : str).

(** [Info.event()] *)
Definition Info_event (i : Info) : Event := InfoEvent i.

(** Keyword arguments of a [transcribe] call.  [language] and
    [initial_prompt] are always passed (possibly as [None]); [beam_size]
    may be left out. *)
Record transcribe_kwargs := mkKwargs {
  kw_language : option str;
  kw_initial_prompt : option str;
  kw_beam_size : option Z
}.

(** Keyword arguments of a backend constructor ([None]: not passed). *)
Record backend_kwargs := mkBackendKwargs {
  bk_download_dir : option str;
  bk_device : option str;
  bk_compute_type : option str;
  bk_api_key : option str
}.

(** [dict.get(key, default)] on an optional entry. *)
Definition get_default {A} (o : option A) (d : A) : A :=
  match o with Some a => a | None => d end.

(* ================================================================== *)
(** ** backends/base.py: the backend interface *)
(* ================================================================== *)

(** The audio file found at a path: [None] when there is no such file. *)
Definition audio_file := option Wave_write.

Record WhisperBackend := mkBackend {
  transcribe : audio_file -> transcribe_kwargs -> result (generator Segment);
  get_supported_languages : list str;
  get_version : str;
  get_attribution : Attribution
}.

(* ================================================================== *)
(** ** The environment: recognition engines and the platform *)
(* ================================================================== *)

(** The engines are opaque.  Each is a function from its arguments to
    the value it returns or the exception it raises; the properties
    below hold for every such function. *)

Record TranscriptionInfo := mkTranscriptionInfo { info_language : str }.

(** [faster_whisper.WhisperModel] instance. *)
Record fw_model := mkFwModel {
  model_transcribe :
    audio_file -> Z -> option str -> option str ->
    result (generator Segment * TranscriptionInfo)
}.

(** The [faster_whisper] package. *)
Record faster_whisper_module := mkFwModule {
  WhisperModel : str -> option str -> str -> str -> result fw_model;
  _LANGUAGE_CODES : list str;
  fw___version__ : str
}.

(** One entry of the ['segments'] list of an [mlx_whisper] result: a
    dictionary in which each key may be missing. *)
Record mlx_segment := mkMlxSegment {
  ms_text : option str;
  ms_start : option float;
  ms_end : option float
}.

(** What [mlx_whisper.transcribe] returns: a dictionary with optional
    ['segments'] and ['text'] keys, or something that is not a
    dictionary. *)
Inductive mlx_result :=
| MlxDict (segments : option (list mlx_segment)) (full_text : option str)
| MlxOther.

Record mlx_options := mkMlxOptions {
  path_or_hf_repo : str;
  verbose : bool;
  opt_language : option str;
  opt_initial_prompt : option str
}.

(** The [mlx_whisper] package. *)
Record mlx_whisper_module := mkMlxModule {
  mlx_transcribe : audio_file -> mlx_options -> result mlx_result;
  mlx___version__ : option str
}.

Record openai_segment := mkOpenaiSegment { os_text : str }.

(** The response object of the transcription API: [resp_segments] is
    [None] when the object has no [segments] attribute (or it is
    [None]). *)
Record openai_response := mkOpenaiResponse {
  resp_segments : option (list openai_segment);
  resp_text : str
}.

Record openai_request := mkOpenaiRequest {
  rq_model : str;
  rq_file : Wave_write;
  rq_response_format : str;
  rq_language : option str;
  rq_prompt : option str
}.

(** An [openai.OpenAI] client. *)
Record openai_client := mkOpenaiClient {
  transcriptions_create : openai_request -> result openai_response
}.

(** The [openai] package; [openai___version__] is [None] when the
    package has no [__version__] attribute. *)
Record openai_module := mkOpenaiModule {
  OpenAI : str -> openai_client;
  openai___version__ : option str
}.

(** Everything the program asks of its surroundings.  An [import] of a
    package that is not installed raises [ImportError]: here [None]
    (or [false] where only the success of the import is used). *)
Record Env := mkEnv {
  platform_machine : str;
  platform_system : str;
  import_mlx_whisper : option mlx_whisper_module;
  import_faster_whisper : option faster_whisper_module;
  import_whisper : bool;
  import_openai : option openai_module;
  getenv_OPENAI_API_KEY : option str
}.

(* ================================================================== *)
(** ** Generator bodies with [try] / [except] *)
(* ================================================================== *)

(** A generator body that first evaluates a fallible call and then
    continues: if the call raises, so does the generator, before any
    item. *)
Definition gen_bind {A B} (r : result B) (k : B -> generator A)
  : generator A :=
  match r with
  | inl e => Generator [] (Some e)
  | inr b => k b
  end.

(** [try: body  except Exception as e: handler(e)] inside a generator:
    the items of [body] yielded before the exception stay yielded. *)
Definition gen_except {A} (body : generator A) (handler : exn -> generator A)
  : generator A :=
  match raised body with
  | None => body
  | Some e =>
      let h := handler e in
      Generator (yielded body ++ yielded h) (raised h)
  end.

(** Python's [a or b] on optional strings. *)
Definition por (a b : option str) : option str :=
  if otruthy a then a else b.

(** [kwargs.get(key)] used as [if kwargs.get(key): opts[k] = kwargs[key]]:
    the option is passed on only when it is truthy. *)
Definition if_truthy (o : option str) : option str :=
  if otruthy o then o else None.

(* ================================================================== *)
(** ** backends/faster_whisper.py *)
(* ================================================================== *)

Module FasterWhisperBackend.

Record t := mk {
  model : fw_model;
  _faster_whisper : faster_whisper_module
}.

Definition __init__ (env : Env) (model_name : str) (kwargs : backend_kwargs)
  : result t :=
  match import_faster_whisper env with
  | None => Raise (ImportError (lit "No module named 'faster_whisper'"))
  | Some faster_whisper =>
      match WhisperModel faster_whisper model_name
              (bk_download_dir kwargs)
              (get_default (bk_device kwargs) (lit "cpu"))
              (get_default (bk_compute_type kwargs) (lit "default")) with
      | inl e => Raise e
      | inr m => Return (mk m faster_whisper)
      end
  end.

(** No [try]: what the engine raises, the caller gets. *)
Definition transcribe (self : t) (audio_path : audio_file)
    (kwargs : transcribe_kwargs) : result (generator Segment) :=
  match model_transcribe (model self) audio_path
          (get_default (kw_beam_size kwargs) 5%Z)
          (kw_language kwargs)
          (kw_initial_prompt kwargs) with
  | inl e => Raise e
  | inr (segments, _info) => Return segments
  end.

Definition get_supported_languages (self : t) : list str :=
  _LANGUAGE_CODES (_faster_whisper self).

Definition get_version (self : t) : str :=
  fw___version__ (_faster_whisper self).

Definition get_attribution (self : t) : Attribution :=
  mkAttribution (lit "Guillaume Klein")
                (lit "https://github.com/guillaumekln/faster-whisper/").

Definition as_backend (self : t) : WhisperBackend :=
  mkBackend (transcribe self) (get_supported_languages self)
            (get_version self) (get_attribution self).

End FasterWhisperBackend.

(* ================================================================== *)
(** ** backends/mlx_whisper.py *)
(* ================================================================== *)

Module MLXWhisperBackend.

Record t := mk {
  _mlx_whisper : mlx_whisper_module;
  model_path : str
}.

Definition known_sizes : list str :=
  [lit "tiny"; lit "base"; lit "small"; lit "medium"; lit "large"].

Definition __init__ (env : Env) (model_name : str) (kwargs : backend_kwargs)
  : result t :=
  match import_mlx_whisper env with
  | None =>
      Raise (ImportError
        (lit "MLX Whisper not available. Install with: pip install mlx-whisper"))
  | Some mlx_whisper =>
      let model_path :=
        if startswith model_name (lit "mlx-community/") then model_name
        else if in_list model_name known_sizes
        then lit "mlx-community/whisper-" ++ model_name ++ lit "-mlx"
        else lit "mlx-community/whisper-tiny-mlx" in
      Return (mk mlx_whisper model_path)
  end.

(** The [Segment] class of the normal path: [start] and [end] default to
    [0.0]. *)
Definition Segment3 (text : str) (start end_ : float) : Segment :=
  mkSegment (Some text) (Some start) (Some end_).

(** The [Segment] class of the [except] path: it has only [text]. *)
Definition Segment1 (text : str) : Segment :=
  mkSegment (Some text) None None.

(** The loop over [result['segments']]. *)
Fixpoint yield_segments (l : list mlx_segment) : list Segment :=
  match l with
  | [] => []
  | segment :: rest =>
      let text := strip (get_default (ms_text segment) (lit "")) in
      if truthy text
      then Segment3 text (get_default (ms_start segment) 0%float)
                         (get_default (ms_end segment) 0%float)
           :: yield_segments rest
      else yield_segments rest
  end.

(** What is yielded for an engine result. *)
Definition normalize (result : mlx_result) : list Segment :=
  match result with
  | MlxDict (Some (s :: l)) _ => yield_segments (s :: l)
  | MlxDict _ (Some t) =>
      let text := strip t in
      if truthy text then [Segment3 text 0%float 0%float] else []
  | MlxDict _ None => []
  | MlxOther => []
  end.

Definition transcribe_options (self : t) (kwargs : transcribe_kwargs)
  : mlx_options :=
  mkMlxOptions (model_path self) false
               (if_truthy (kw_language kwargs))
               (if_truthy (kw_initial_prompt kwargs)).

(** A generator function: the call itself never raises.  The whole body
    is inside [try]; the handler yields one segment with empty text. *)
Definition transcribe (self : t) (audio_path : audio_file)
    (kwargs : transcribe_kwargs) : result (generator Segment) :=
  Return
    (gen_except
       (gen_bind
          (mlx_transcribe (_mlx_whisper self) audio_path
                          (transcribe_options self kwargs))
          (fun result => Generator (normalize result) None))
       (fun e => Generator [Segment1 (lit "")] None)).

Definition get_supported_languages (self : t) : list str :=
  map lit ["en"; "es"; "fr"; "de"; "it"; "pt"; "ru"; "ja"; "ko"; "zh"].

Definition get_version (self : t) : str :=
  get_default (mlx___version__ (_mlx_whisper self)) (lit "1.0.0").

Definition get_attribution (self : t) : Attribution :=
  mkAttribution (lit "MLX Community")
                (lit "https://github.com/ml-explore/mlx-examples/").

Definition as_backend (self : t) : WhisperBackend :=
  mkBackend (transcribe self) (get_supported_languages self)
            (get_version self) (get_attribution self).

End MLXWhisperBackend.

(* ================================================================== *)
(** ** backends/openai_whisper_api.py *)
(* ================================================================== *)

Module OpenAIWhisperBackend.

Record t := mk {
  client : openai_client;
  model_name : str
}.

Definition valid_models : list str := [lit "whisper-1"].

Definition __init__ (env : Env) (model_name : str) (kwargs : backend_kwargs)
  : result t :=
  match import_openai env with
  | None =>
      Raise (ImportError
        (lit "OpenAI package not installed. Install with: pip install openai"))
  | Some openai =>
      let api_key := por (bk_api_key kwargs) (getenv_OPENAI_API_KEY env) in
      match api_key with
      | Some (c :: key) =>
          let client := OpenAI openai (c :: key) in
          if negb (in_list model_name valid_models)
          then Return (mk client (lit "whisper-1"))
          else Return (mk client model_name)
      | _ =>
          Raise (ValueError
            (lit "OpenAI API key required. Set OPENAI_API_KEY environment variable or pass api_key parameter"))
      end
  end.

(** The local [Segment] class: it has only [text]. *)
Definition Segment1 (text : str) : Segment := mkSegment (Some text) None None.

Definition transcribe_kwargs_of (self : t) (audio_file : Wave_write)
    (kwargs : transcribe_kwargs) : openai_request :=
  mkOpenaiRequest (model_name self) audio_file (lit "verbose_json")
                  (if_truthy (kw_language kwargs))
                  (if_truthy (kw_initial_prompt kwargs)).

(** [with open(audio_path, 'rb') as audio_file] *)
Definition open_rb (audio_path : audio_file) : result Wave_write :=
  match audio_path with
  | None => Raise (OSError (lit "No such file or directory"))
  | Some f => Return f
  end.

(** What is yielded for a response. *)
Definition normalize (response : openai_response) : list Segment :=
  match resp_segments response with
  | Some (s :: l) => map (fun segment => Segment1 (os_text segment)) (s :: l)
  | _ => [Segment1 (resp_text response)]
  end.

(** A generator function.  The [except] clause logs and re-raises. *)
Definition transcribe (self : t) (audio_path : audio_file)
    (kwargs : transcribe_kwargs) : result (generator Segment) :=
  Return
    (gen_except
       (gen_bind (open_rb audio_path) (fun audio_file =>
        gen_bind (transcriptions_create (client self)
                    (transcribe_kwargs_of self audio_file kwargs))
                 (fun response => Generator (normalize response) None)))
       (fun e => Generator [] (Some e))).

Definition get_supported_languages (self : t) : list str :=
  map lit
    ["af"; "am"; "ar"; "as"; "az"; "ba"; "be"; "bg"; "bn"; "bo"; "br"; "bs";
     "ca"; "cs"; "cy"; "da"; "de"; "el"; "en"; "es"; "et"; "eu"; "fa"; "fi";
     "fo"; "fr"; "gl"; "gu"; "ha"; "haw"; "he"; "hi"; "hr"; "ht"; "hu"; "hy";
     "id"; "is"; "it"; "ja"; "jw"; "ka"; "kk"; "km"; "kn"; "ko"; "la"; "lb";
     "ln"; "lo"; "lt"; "lv"; "mg"; "mi"; "mk"; "ml"; "mn"; "mr"; "ms"; "mt";
     "my"; "ne"; "nl"; "nn"; "no"; "oc"; "pa"; "pl"; "ps"; "pt"; "ro"; "ru";
     "sa"; "sd"; "si"; "sk"; "sl"; "sn"; "so"; "sq"; "sr"; "su"; "sv"; "sw";
     "ta"; "te"; "tg"; "th"; "tk"; "tl"; "tr"; "tt"; "uk"; "ur"; "uz"; "vi";
     "yi"; "yo"; "zh"].

(** The method imports the package again, in the environment [env] it
    is called in; its bare [except] answers for an import that fails
    and for a package without [__version__] alike. *)
Definition get_version (env : Env) (self : t) : str :=
  match import_openai env with
  | Some openai =>
      match openai___version__ openai with
      | Some version => lit "openai-api-" ++ version
      | None => lit "openai-api-unknown"
      end
  | None => lit "openai-api-unknown"
  end.

Definition get_attribution (self : t) : Attribution :=
  mkAttribution (lit "OpenAI")
                (lit "https://platform.openai.com/docs/guides/speech-to-text").

(** The backend as the rest of the program sees it, in the environment
    [env] of the process. *)
Definition as_backend (env : Env) (self : t) : WhisperBackend :=
  mkBackend (transcribe self) (get_supported_languages self)
            (get_version env self) (get_attribution self).

End OpenAIWhisperBackend.

(* ================================================================== *)
(** ** backends/factory.py *)
(* ================================================================== *)

Module WhisperBackendFactory.

(** A backend class, used as a constructor. *)
Definition backend_class := str -> backend_kwargs -> result WhisperBackend.

(** The class-level dictionary [_backends], in insertion order. *)
Definition registry := list (str * backend_class).

Definition construct {T} (init : str -> backend_kwargs -> result T)
    (as_backend : T -> WhisperBackend) : backend_class :=
  fun model_name kwargs =>
    match init model_name kwargs with
    | inl e => Raise e
    | inr self => Return (as_backend self)
    end.

Definition _backends (env : Env) : registry :=
  [ (lit "faster-whisper",
     construct (FasterWhisperBackend.__init__ env)
               FasterWhisperBackend.as_backend);
    (lit "mlx-whisper",
     construct (MLXWhisperBackend.__init__ env)
               MLXWhisperBackend.as_backend);
    (lit "openai-whisper",
     construct (OpenAIWhisperBackend.__init__ env)
               (OpenAIWhisperBackend.as_backend env)) ].

(** [d[name]] *)
Fixpoint lookup (d : registry) (name : str) : option backend_class :=
  match d with
  | [] => None
  | (k, v) :: d' => if str_eqb k name then Some v else lookup d' name
  end.

(** [d[name] = cls]: an existing key keeps its place. *)
Fixpoint register_backend (d : registry) (name : str) (cls : backend_class)
  : registry :=
  match d with
  | [] => [(name, cls)]
  | (k, v) :: d' =>
      if str_eqb k name then (k, cls) :: d'
      else (k, v) :: register_backend d' name cls
  end.

Definition get_available_backends (d : registry) : list str := map fst d.

Definition create_backend (d : registry) (backend_name model_name : str)
    (kwargs : backend_kwargs) : result WhisperBackend :=
  match lookup d backend_name with
  | None =>
      let available := join (lit ", ") (get_available_backends d) in
      Raise (ValueError (lit "Unknown backend '" ++ backend_name
                           ++ lit "'. Available: " ++ available))
  | Some backend_class => backend_class model_name kwargs
  end.

End WhisperBackendFactory.

(** [is_arm] of [__main__.py], and the same test in
    [detect_optimal_backend]. *)
Definition is_arm_machine (machine : str) : bool :=
  contains machine (lit "arm") || contains machine (lit "aarch").

Definition no_backend_message : str :=
  lit "No Whisper backend available. Install one of: faster-whisper, mlx-whisper, or openai-whisper".

(** [try: import m; return name  except ImportError: otherwise] *)
Definition try_import (available : bool) (name : str)
    (otherwise : result str) : result str :=
  if available then Return name else otherwise.

Definition is_some {A} (o : option A) : bool :=
  match o with Some _ => true | None => false end.

(** [system == "darwin" and ("arm" in machine or "aarch" in machine)] *)
Definition is_apple_silicon (system machine : str) : bool :=
  str_eqb system (lit "darwin") && is_arm_machine machine.

Definition detect_optimal_backend (env : Env) : result str :=
  let machine := lower (platform_machine env) in
  let system := lower (platform_system env) in
  let generic :=
    try_import (is_some (import_faster_whisper env)) (lit "faster-whisper")
      (try_import (import_whisper env) (lit "openai-whisper")
         (Raise (ImportError no_backend_message))) in
  if is_apple_silicon system machine
  then try_import (is_some (import_mlx_whisper env)) (lit "mlx-whisper")
         generic
  else generic.

(* ================================================================== *)
(** ** The standard library's [wave.Wave_write], as the handler uses it *)
(* ================================================================== *)

Module wave.

(** [wave.open(path, "wb")]: a writer with no parameter set. *)
Definition open : Wave_write := mkWave None None None [].

Definition setframerate (w : Wave_write) (framerate : Z) : result Wave_write :=
  if (framerate <=? 0)%Z then Raise (WaveError (lit "bad frame rate"))
  else Return (mkWave (Some framerate) (_sampwidth w) (_nchannels w) (_frames w)).

Definition setsampwidth (w : Wave_write) (sampwidth : Z) : result Wave_write :=
  if (sampwidth <? 1)%Z || (4 <? sampwidth)%Z
  then Raise (WaveError (lit "bad sample width"))
  else Return (mkWave (_framerate w) (Some sampwidth) (_nchannels w) (_frames w)).

Definition setnchannels (w : Wave_write) (nchannels : Z) : result Wave_write :=
  if (nchannels <? 1)%Z then Raise (WaveError (lit "bad # of channels"))
  else Return (mkWave (_framerate w) (_sampwidth w) (Some nchannels) (_frames w)).

(** [not x] for a parameter that is [None] or an integer. *)
Definition unset (o : option Z) : bool :=
  match o with None => true | Some z => (z =? 0)%Z end.

(** What [struct.pack] takes for an unsigned 16-bit field ([H]) and for
    an unsigned 32-bit field ([L]). *)
Definition fits_H (z : Z) : bool := (0 <=? z)%Z && (z <=? 65535)%Z.

Definition fits_L (z : Z) : bool := (0 <=? z)%Z && (z <=? 4294967295)%Z.

(** The parameter fields of the header that [_write_header] packs with
    [struct.pack('<L4s4sLHHLLHH4s', ...)], in the order of the format:
    the number of channels ([H]), the frame rate ([L]), the byte rate
    ([L]), the block size ([H]) and the bits per sample ([H]).  The
    first field that does not fit raises [struct.error]. *)
Definition pack_header (nchannels sampwidth framerate : Z) : option exn :=
  if negb (fits_H nchannels)
  then Some (StructError (lit "'H' format requires 0 <= number <= 65535"))
  else if negb (fits_L framerate)
  then Some (StructError (lit "'L' format requires 0 <= number <= 4294967295"))
  else if negb (fits_L (nchannels * framerate * sampwidth))
  then Some (StructError (lit "'L' format requires 0 <= number <= 4294967295"))
  else if negb (fits_H (nchannels * sampwidth))
  then Some (StructError (lit "'H' format requires 0 <= number <= 65535"))
  else if negb (fits_H (sampwidth * 8))
  then Some (StructError (lit "'H' format requires 0 <= number <= 65535"))
  else None.

(** [_ensure_header_written]: the header is written at the first write
    (or at [close], when nothing was written), from the parameters set
    by then.  The parameters cannot change afterwards, so that packing
    them succeeds at a later call exactly when it did at the first:
    the writer needs no record of whether the header is written.  The
    two length fields of the header are left out: a buffer is taken to
    stay below the size a RIFF file can have (2^32 - 36 bytes). *)
Definition _ensure_header_written (w : Wave_write) : result Wave_write :=
  if unset (_nchannels w) then Raise (WaveError (lit "# channels not specified"))
  else if unset (_sampwidth w) then Raise (WaveError (lit "sample width not specified"))
  else if unset (_framerate w) then Raise (WaveError (lit "sampling rate not specified"))
  else match pack_header (get_default (_nchannels w) 0%Z)
                         (get_default (_sampwidth w) 0%Z)
                         (get_default (_framerate w) 0%Z) with
       | Some e => Raise e
       | None => Return w
       end.

Definition writeframes (w : Wave_write) (data : list Byte.byte)
  : result Wave_write :=
  match _ensure_header_written w with
  | inl e => Raise e
  | inr _ =>
      Return (mkWave (_framerate w) (_sampwidth w) (_nchannels w)
                     (_frames w ++ data))
  end.

Definition close (w : Wave_write) : result Wave_write :=
  _ensure_header_written w.

End wave.

(* ================================================================== *)
(** ** handler.py *)
(* ================================================================== *)

(** The parsed command line ([argparse.Namespace]).  [args_beam_size] is
    [None] when the namespace has no such attribute. *)
Record Namespace := mkNamespace {
  args_backend : str;
  args_model : str;
  args_data_dir : list str;
  args_download_dir : option str;
  args_device : str;
  args_language : option str;
  args_compute_type : str;
  args_beam_size : option Z;
  args_initial_prompt : option str
}.

(** The attributes of a [WhisperEventHandler].  [_wav_path] is the file
    found at [self._wav_path].  The lock [model_lock] serialises the
    sessions of one process and does not show in one session's
    behaviour. *)
Record WhisperEventHandler := mkHandler {
  cli_args : Namespace;
  wyoming_info_event : Event;
  backend : WhisperBackend;
  initial_prompt : option str;
  _language : option str;
  _wav_file : option Wave_write;
  _wav_path : audio_file
}.

(** [WhisperEventHandler.__init__] *)
Definition new_handler (wyoming_info : Info) (cli_args : Namespace)
    (backend : WhisperBackend) (initial_prompt : option str)
  : WhisperEventHandler :=
  mkHandler cli_args (Info_event wyoming_info) backend initial_prompt
            (args_language cli_args) None None.

(** *** A method of the handler: state, written events, result *)

Record Step (A : Type) := mkStep {
  after : WhisperEventHandler;
  written : list Event;
  returned : result A
}.

Definition M (A : Type) : Type := WhisperEventHandler -> Step A.

Definition ret {A} (a : A) : M A := fun self => mkStep self [] (Return a).

Definition raise {A} (e : exn) : M A := fun self => mkStep self [] (Raise e).

Definition bind {A B} (m : M A) (f : A -> M B) : M B :=
  fun self =>
    match m self with
    | mkStep self' out (inl e) => mkStep self' out (Raise e)
    | mkStep self' out (inr a) =>
        match f a self' with
        | mkStep self'' out' r => mkStep self'' (out ++ out') r
        end
    end.

Notation "x <- m ;; k" := (bind m (fun x => k))
  (at level 61, m at next level, right associativity).
Notation "m ;;; k" := (bind m (fun _ => k))
  (at level 61, right associativity).

Definition get_self : M WhisperEventHandler :=
  fun self => mkStep self [] (Return self).

Definition set_wav_file (v : option Wave_write) : M unit :=
  fun self =>
    mkStep (mkHandler (cli_args self) (wyoming_info_event self) (backend self)
                      (initial_prompt self) (_language self) v (_wav_path self))
           [] (Return tt).

Definition set_wav_path (v : audio_file) : M unit :=
  fun self =>
    mkStep (mkHandler (cli_args self) (wyoming_info_event self) (backend self)
                      (initial_prompt self) (_language self) (_wav_file self) v)
           [] (Return tt).

Definition set_language (v : option str) : M unit :=
  fun self =>
    mkStep (mkHandler (cli_args self) (wyoming_info_event self) (backend self)
                      (initial_prompt self) v (_wav_file self) (_wav_path self))
           [] (Return tt).

Definition write_event (ev : Event) : M unit :=
  fun self => mkStep self [ev] (Return tt).

(** A method call on the object [self._wav_file]. *)
Definition on_wav_file (method : Wave_write -> result Wave_write) : M unit :=
  self <- get_self ;;
  match _wav_file self with
  | None => raise (AttributeError (lit "'NoneType' object has no attribute"))
  | Some w =>
      match method w with
      | inl e => raise e
      | inr w' => set_wav_file (Some w')
      end
  end.

(** *** The transcript of one utterance *)

(** The body of [for segment in segments]: one more text, or none. *)
Definition collect (segment_texts : list str) (segment : Segment) : list str :=
  match text segment with
  | Some t =>
      if truthy t
      then let segment_text := strip t in
           if truthy segment_text then segment_texts ++ [segment_text]
           else segment_texts
      else segment_texts
  | None => segment_texts
  end.

(** The whole loop: a generator that raises ends the loop with its
    exception. *)
Definition for_segments (segments : generator Segment) : result (list str) :=
  match raised segments with
  | Some e => Raise e
  | None => Return (fold_left collect (yielded segments) [])
  end.

Definition transcription_kwargs (self : WhisperEventHandler)
  : transcribe_kwargs :=
  mkKwargs (_language self) (initial_prompt self)
           (args_beam_size (cli_args self)).

(** The [try] block: call the backend, consume the segments, join. *)
Definition try_transcribe (self : WhisperEventHandler) : result str :=
  match transcribe (backend self) (_wav_path self)
                   (transcription_kwargs self) with
  | inl e => Raise e
  | inr segments =>
      match for_segments segments with
      | inl e => Raise e
      | inr segment_texts => Return (join (lit " ") segment_texts)
      end
  end.

(** [try: ... except Exception as e: text = ""] *)
Definition transcription_text (self : WhisperEventHandler) : str :=
  match try_transcribe self with
  | inl _ => lit ""
  | inr text => text
  end.

(** *** [handle_event] *)

Definition handle_audio_chunk (rate width channels : Z)
    (audio : list Byte.byte) : M bool :=
  self <- get_self ;;
  match _wav_file self with
  | None =>
      set_wav_file (Some wave.open) ;;;
      set_wav_path (Some wave.open) ;;;
      on_wav_file (fun w => wave.setframerate w rate) ;;;
      on_wav_file (fun w => wave.setsampwidth w width) ;;;
      on_wav_file (fun w => wave.setnchannels w channels)
  | Some _ => ret tt
  end ;;;
  on_wav_file (fun w => wave.writeframes w audio) ;;;
  ret true.

Definition handle_audio_stop : M bool :=
  self <- get_self ;;
  match _wav_file self with
  | None => raise AssertionError
  | Some _ =>
      on_wav_file wave.close ;;;
      self <- get_self ;;
      set_wav_path (_wav_file self) ;;;
      set_wav_file None ;;;
      self <- get_self ;;
      let text := transcription_text self in
      write_event (Transcript text) ;;;
      set_language (args_language (cli_args self)) ;;;
      ret false
  end.

Definition handle_transcribe (language : option str) : M bool :=
  match language with
  | Some (c :: l) => set_language (Some (c :: l)) ;;; ret true
  | _ => ret true
  end.

Definition handle_describe : M bool :=
  self <- get_self ;;
  write_event (wyoming_info_event self) ;;;
  ret true.

Definition handle_event (event : Event) : M bool :=
  match event with
  | AudioChunk rate width channels audio =>
      handle_audio_chunk rate width channels audio
  | AudioStop => handle_audio_stop
  | Transcribe language => handle_transcribe language
  | Describe => handle_describe
  | _ => ret true
  end.

(** The loop of [wyoming.server.AsyncEventHandler.run], which calls the
    handler: events are handled one after the other until
    [handle_event] returns [False] or raises; then the session ends.
    The result is the state at the end and everything written. *)
Fixpoint run (events : list Event) (self : WhisperEventHandler)
  : WhisperEventHandler * list Event :=
  match events with
  | [] => (self, [])
  | event :: rest =>
      let r := handle_event event self in
      match returned r with
      | inr true =>
          let (final, out) := run rest (after r) in
          (final, written r ++ out)
      | _ => (after r, written r)
      end
  end.

(* ================================================================== *)
(** ** __main__.py *)
(* ================================================================== *)

Definition set_args_download_dir (args : Namespace) (v : option str) :=
  mkNamespace (args_backend args) (args_model args) (args_data_dir args) v
    (args_device args) (args_language args) (args_compute_type args)
    (args_beam_size args) (args_initial_prompt args).

Definition set_args_backend (args : Namespace) (v : str) :=
  mkNamespace v (args_model args) (args_data_dir args)
    (args_download_dir args) (args_device args) (args_language args)
    (args_compute_type args) (args_beam_size args) (args_initial_prompt args).

Definition set_args_model (args : Namespace) (v : str) :=
  mkNamespace (args_backend args) v (args_data_dir args)
    (args_download_dir args) (args_device args) (args_language args)
    (args_compute_type args) (args_beam_size args) (args_initial_prompt args).

Definition set_args_language (args : Namespace) (v : option str) :=
  mkNamespace (args_backend args) (args_model args) (args_data_dir args)
    (args_download_dir args) (args_device args) v
    (args_compute_type args) (args_beam_size args) (args_initial_prompt args).

Definition set_args_beam_size (args : Namespace) (v : option Z) :=
  mkNamespace (args_backend args) (args_model args) (args_data_dir args)
    (args_download_dir args) (args_device args) (args_language args)
    (args_compute_type args) v (args_initial_prompt args).

(** [if not args.download_dir: args.download_dir = args.data_dir[0]] *)
Definition default_download_dir (args : Namespace) : result Namespace :=
  if otruthy (args_download_dir args) then Return args
  else match args_data_dir args with
       | [] => Raise (IndexError (lit "list index out of range"))
       | d :: _ => Return (set_args_download_dir args (Some d))
       end.

(** [if args.backend == "auto": args.backend = detect_optimal_backend()] *)
Definition auto_backend (env : Env) (args : Namespace) : result Namespace :=
  if str_eqb (args_backend args) (lit "auto")
  then match detect_optimal_backend env with
       | inl e => Raise e
       | inr b => Return (set_args_backend args b)
       end
  else Return args.

(** Automatic model selection. *)
Definition auto_model (is_arm : bool) (args : Namespace) : Namespace :=
  if str_eqb (args_model args) (lit "auto")
  then if str_eqb (args_backend args) (lit "mlx-whisper")
       then set_args_model args (lit "mlx-community/whisper-tiny-mlx")
       else set_args_model args
              (if is_arm then lit "tiny-int8" else lit "base-int8")
  else args.

(** [if args.beam_size <= 0: args.beam_size = 1 if is_arm else 5] *)
Definition auto_beam_size (is_arm : bool) (args : Namespace)
  : result Namespace :=
  match args_beam_size args with
  | None => Raise (AttributeError (lit "beam_size"))
  | Some b =>
      if (b <=? 0)%Z
      then Return (set_args_beam_size args (Some (if is_arm then 1 else 5)%Z))
      else Return args
  end.

(** [re.match(r"^(tiny|base|small|medium)[.-]int8$", model)]: the group
    when the pattern matches.  [$] also matches before a final
    newline. *)
Definition int8_sizes : list str :=
  [lit "tiny"; lit "base"; lit "small"; lit "medium"].

Definition matches_int8 (model size : str) : bool :=
  existsb
    (fun sep =>
       existsb (fun tail => str_eqb model (size ++ sep ++ lit "int8" ++ tail))
               [ []; [10] ])
    [lit "."; lit "-"].

Definition re_match_int8 (model : str) : option str :=
  find (matches_int8 model) int8_sizes.

(** Model-name resolution for faster-whisper: the advertised
    [model_name] and the updated [args]. *)
Definition resolve_model (args : Namespace) : str * Namespace :=
  if str_eqb (args_backend args) (lit "faster-whisper")
  then match re_match_int8 (args_model args) with
       | Some model_size =>
           let model_name := model_size ++ lit "-int8" in
           (model_name,
            set_args_model args (lit "rhasspy/faster-whisper-" ++ model_name))
       | None => (args_model args, args)
       end
  else (args_model args, args).

(** [if args.language == "auto": args.language = None] *)
Definition auto_language (args : Namespace) : Namespace :=
  match args_language args with
  | Some l => if str_eqb l (lit "auto") then set_args_language args None
              else args
  | None => args
  end.

Definition main_backend_kwargs (args : Namespace) : backend_kwargs :=
  mkBackendKwargs (args_download_dir args) (Some (args_device args))
                  (Some (args_compute_type args)) None.

(** How [main] goes on after start-up. *)
Inductive startup :=
| Serving (args : Namespace) (whisper_backend : WhisperBackend)
          (wyoming_info : Info)
| Returned                      (* the backend did not load: logged *)
| Uncaught (e : exn).

Section Main.

(** The package version, defined in the package's [__init__.py]. *)
Variable __version__ : str.

(** The capability descriptor. *)
Definition build_info (args : Namespace) (model_name : str)
    (whisper_backend : WhisperBackend) : Info :=
  mkInfo
    [ mkAsrProgram
        (args_backend args)
        (lit "Whisper transcription using " ++ args_backend args)
        (get_attribution whisper_backend)
        true
        __version__
        [ mkAsrModel model_name model_name
            (get_attribution whisper_backend)
            true
            (get_supported_languages whisper_backend)
            (get_version whisper_backend) ] ].

(** Everything [main] settles before it creates the backend: the
    advertised [model_name] and the final [args]. *)
Definition resolve_args (env : Env) (parsed : Namespace)
  : result (str * Namespace) :=
  match default_download_dir parsed with
  | inl e => Raise e
  | inr args =>
  match auto_backend env args with
  | inl e => Raise e
  | inr args =>
  let machine := lower (platform_machine env) in
  let is_arm := is_arm_machine machine in
  let args := auto_model is_arm args in
  match auto_beam_size is_arm args with
  | inl e => Raise e
  | inr args =>
  let (model_name, args) := resolve_model args in
  Return (model_name, auto_language args)
  end end end.

Definition main (env : Env) (parsed : Namespace) : startup :=
  match resolve_args env parsed with
  | inl e => Uncaught e
  | inr (model_name, args) =>
      match WhisperBackendFactory.create_backend
              (WhisperBackendFactory._backends env)
              (args_backend args) (args_model args)
              (main_backend_kwargs args) with
      | inl e => Returned
      | inr whisper_backend =>
          Serving args whisper_backend
                  (build_info args model_name whisper_backend)
      end
  end.

(** The handler factory handed to the server: one handler per
    connection, all from the same [wyoming_info], [args] and backend. *)
Definition session_handler (args : Namespace)
    (whisper_backend : WhisperBackend) (wyoming_info : Info)
  : WhisperEventHandler :=
  new_handler wyoming_info args whisper_backend (args_initial_prompt args).

End Main.

(* ================================================================== *)
(** ** Notions used in the statements *)
(* ================================================================== *)

(** The text of a segment, empty when it has none. *)
Definition segment_text (s : Segment) : str := get_default (text s) [].

(** The transcript as the specification words it: the trimmed texts of
    the segments whose trimmed text is not empty, joined by one space,
    in segment order. *)
Definition TranscriptResult (segments : list Segment) : str :=
  join (lit " ")
       (filter truthy (map (fun s => strip (segment_text s)) segments)).

(** A segment whose text is just that string. *)
Definition text_segment (t : string) : Segment :=
  mkSegment (Some (lit t)) None None.

(** A backend that returns the given segments, whatever it is asked. *)
Definition mock_backend (segments : list Segment) : WhisperBackend :=
  mkBackend (fun _ _ => Return (Generator segments None))
            [] (lit "mock") (mkAttribution (lit "mock") (lit "mock")).

(** A backend whose segment sequence yields [segments] and then raises
    [e]. *)
Definition breaking_backend (segments : list Segment) (e : exn)
  : WhisperBackend :=
  mkBackend (fun _ _ => Return (Generator segments (Some e)))
            [] (lit "mock") (mkAttribution (lit "mock") (lit "mock")).

(** The header of a writer is complete: [close] and [writeframes] will
    not raise. *)
Definition header_ready (w : Wave_write) : bool :=
  negb (wave.unset (_nchannels w)) && negb (wave.unset (_sampwidth w))
  && negb (wave.unset (_framerate w))
  && negb (is_some (wave.pack_header (get_default (_nchannels w) 0%Z)
                                     (get_default (_sampwidth w) 0%Z)
                                     (get_default (_framerate w) 0%Z))).

(** The session is recording: a buffer is open, with its header set. *)
Definition recording (self : WhisperEventHandler) : bool :=
  match _wav_file self with
  | Some w => header_ready w
  | None => false
  end.

(** The session is idle: no buffer is open. *)
Definition idle (self : WhisperEventHandler) : bool :=
  negb (is_some (_wav_file self)).

(** The backend fails on this utterance with [e]: its call raises [e],
    or its segment sequence does. *)
Definition backend_fails (self : WhisperEventHandler) (audio : audio_file)
    (e : exn) : Prop :=
  transcribe (backend self) audio (transcription_kwargs self) = Raise e
  \/ exists segments,
       transcribe (backend self) audio (transcription_kwargs self)
       = Return (Generator segments (Some e)).

(** Handling events one after the other, whatever each call returns:
    the state after the last one. *)
Definition handle_all (events : list Event) (self : WhisperEventHandler)
  : WhisperEventHandler :=
  fold_left (fun s ev => after (handle_event ev s)) events self.

(** A segment carries a non-empty text that is already trimmed. *)
Definition clean_segment (s : Segment) : Prop :=
  exists t, text s = Some t /\ t <> [] /\ strip t = t.

(** [handle_event] asks the server to go on with this session. *)
Definition keeps_session (r : Step bool) : Prop := returned r = Return true.

(** [handle_event] asks the server to end this session. *)
Definition ends_session (r : Step bool) : Prop := returned r = Return false.

(** A string that does not start with white space. *)
Definition clean_head (s : str) : Prop :=
  match s with
  | [] => True
  | c :: _ => isspace c = false
  end.

(** The state in which the backend is called: the buffer is closed and
    its content is on disk. *)
Definition at_transcription (self : WhisperEventHandler) (w : Wave_write)
  : WhisperEventHandler :=
  mkHandler (cli_args self) (wyoming_info_event self) (backend self)
            (initial_prompt self) (_language self) None (Some w).

(** The state after a completed utterance. *)
Definition after_utterance (self : WhisperEventHandler) (w : Wave_write)
  : WhisperEventHandler :=
  mkHandler (cli_args self) (wyoming_info_event self) (backend self)
            (initial_prompt self) (args_language (cli_args self)) None (Some w).

(** ** Concrete sessions used as instances *)

Definition example_args : Namespace :=
  mkNamespace (lit "mlx-whisper") (lit "tiny") [lit "/data"] None (lit "cpu")
              (Some (lit "en")) (lit "default") (Some 5%Z) None.

Definition example_info : Info :=
  mkInfo [mkAsrProgram (lit "mlx-whisper") (lit "d")
            (mkAttribution (lit "a") (lit "u")) true (lit "1.0") []].

(** A fresh session on a backend, after one audio chunk. *)
Definition example_recording (b : WhisperBackend) : WhisperEventHandler :=
  after (handle_event (AudioChunk 16000 2 1 [])
           (new_handler example_info example_args b None)).

Definition example_wave : Wave_write :=
  mkWave (Some 16000%Z) (Some 2%Z) (Some 1%Z) [].

(** A method leaves the capability descriptor of the session alone. *)
Definition keeps_info {A} (m : M A) : Prop :=
  forall self, wyoming_info_event (after (m self)) = wyoming_info_event self.

(** A state that a session can be in between two events: no buffer, or
    a buffer whose header is set. *)
Definition well_formed (self : WhisperEventHandler) : bool :=
  idle self || recording self.

(** ** A concrete start-up used as instance *)

(** An [mlx_whisper] package whose engine returns only a full text. *)
Definition example_mlx : mlx_whisper_module :=
  mkMlxModule (fun _ _ => Return (MlxDict None (Some (lit " good morning "))))
              (Some (lit "0.4.1")).

(** An Apple-silicon machine with [mlx_whisper] installed, and nothing
    else. *)
Definition example_env : Env :=
  mkEnv (lit "arm64") (lit "Darwin") (Some example_mlx) None false None None.

Definition example_parsed : Namespace :=
  mkNamespace (lit "auto") (lit "auto") [lit "/data"] None (lit "cpu")
              (Some (lit "en")) (lit "default") (Some 5%Z) None.

Definition example_started_args : Namespace :=
  mkNamespace (lit "mlx-whisper") (lit "mlx-community/whisper-tiny-mlx")
              [lit "/data"] (Some (lit "/data")) (lit "cpu")
              (Some (lit "en")) (lit "default") (Some 5%Z) None.

Definition example_started_backend : WhisperBackend :=
  MLXWhisperBackend.as_backend
    (MLXWhisperBackend.mk example_mlx (lit "mlx-community/whisper-tiny-mlx")).

Definition example_started_info : Info :=
  build_info (lit "1.0.0") example_started_args
             (lit "mlx-community/whisper-tiny-mlx") example_started_backend.

(** ** Concrete engines used as instances *)

Definition boom : exn := EngineError (lit "boom").

Definition no_kwargs : transcribe_kwargs := mkKwargs None None None.

Definition no_backend_kwargs : backend_kwargs :=
  mkBackendKwargs None None None None.

(** An [openai] package whose API answers with one blank segment. *)
Definition example_openai : openai_module :=
  mkOpenaiModule
    (fun _ => mkOpenaiClient (fun _ =>
       Return (mkOpenaiResponse (Some [mkOpenaiSegment (lit "  ")])
                                (lit "  "))))
    (Some (lit "1.30.0")).

(** A machine with [openai] installed and an API key in the
    environment. *)
Definition example_openai_env : Env :=
  mkEnv (lit "x86_64") (lit "Linux") None None false (Some example_openai)
        (Some (lit "sk-key")).

Definition example_openai_backend : OpenAIWhisperBackend.t :=
  OpenAIWhisperBackend.mk (OpenAI example_openai (lit "sk-key"))
                          (lit "whisper-1").

(** An OpenAI backend whose API call raises. *)
Definition failing_openai_backend : OpenAIWhisperBackend.t :=
  OpenAIWhisperBackend.mk (mkOpenaiClient (fun _ => Raise boom))
                          (lit "whisper-1").

(** An MLX backend whose engine raises. *)
Definition failing_mlx_backend : MLXWhisperBackend.t :=
  MLXWhisperBackend.mk (mkMlxModule (fun _ _ => Raise boom) None)
                       (lit "mlx-community/whisper-tiny-mlx").

(** An MLX backend whose engine returns a blank full text. *)
Definition blank_mlx_backend : MLXWhisperBackend.t :=
  MLXWhisperBackend.mk
    (mkMlxModule (fun _ _ => Return (MlxDict None (Some (lit "  ")))) None)
    (lit "mlx-community/whisper-tiny-mlx").

(** A faster-whisper backend whose engine raises. *)
Definition failing_fw_backend : FasterWhisperBackend.t :=
  FasterWhisperBackend.mk
    (mkFwModel (fun _ _ _ _ => Raise boom))
    (mkFwModule (fun _ _ _ _ => Raise boom) [] (lit "1.0.3")).

(** The session in which a backend is asked for the given audio. *)
Definition session_on (b : WhisperBackend) (audio : audio_file)
  : WhisperEventHandler :=
  mkHandler example_args (Info_event example_info) b None None None audio.

(** The text of every segment, in order. *)
Definition texts (segments : list Segment) : list (option str) :=
  map text segments.

(* ================================================================== *)
(** ** Further notions: whole sessions and whole start-ups *)
(* ================================================================== *)

(** Everything written while the events are handled one after the
    other (whatever each call returns). *)
Fixpoint outputs (events : list Event) (self : WhisperEventHandler)
  : list Event :=
  match events with
  | [] => []
  | event :: rest =>
      written (handle_event event self)
      ++ outputs rest (after (handle_event event self))
  end.

(** The transcript the handler makes of what a backend call gives:
    the [try] block of [handle_event] as a function of that result. *)
Definition text_of_result (r : result (generator Segment)) : str :=
  match r with
  | inl _ => lit ""
  | inr segments =>
      match for_segments segments with
      | inl _ => lit ""
      | inr segment_texts => join (lit " ") segment_texts
      end
  end.

(** The non-blank trimmed texts, joined by one space. *)
Definition joined (raw : list str) : str :=
  join (lit " ") (filter truthy (map strip raw)).

Definition is_audio_chunk (event : Event) : bool :=
  match event with AudioChunk _ _ _ _ => true | _ => false end.

Definition is_describe (event : Event) : bool :=
  match event with Describe => true | _ => false end.

(** The bytes an event carries (none unless it is an audio chunk). *)
Definition chunk_audio (event : Event) : list Byte.byte :=
  match event with AudioChunk _ _ _ audio => audio | _ => [] end.

(** An event that [handle_event] answers or ignores without touching
    the session: a discovery request, an event of a type it does not
    know, a language-set event without a language. *)
Definition inert (event : Event) : bool :=
  match event with
  | Describe | Transcript _ | InfoEvent _ | OtherEvent _ => true
  | Transcribe language => negb (otruthy language)
  | AudioChunk _ _ _ _ | AudioStop => false
  end.

(** The language override after one more language-set event. *)
Definition override (current language : option str) : option str :=
  if otruthy language then language else current.

(** The session with another language override. *)
Definition with_language (self : WhisperEventHandler) (v : option str)
  : WhisperEventHandler :=
  mkHandler (cli_args self) (wyoming_info_event self) (backend self)
            (initial_prompt self) v (_wav_file self) (_wav_path self).

(** The session with another open buffer. *)
Definition with_wav_file (self : WhisperEventHandler) (w : Wave_write)
  : WhisperEventHandler :=
  mkHandler (cli_args self) (wyoming_info_event self) (backend self)
            (initial_prompt self) (_language self) (Some w) (_wav_path self).

(** A string that starts and ends without white space. *)
Definition trimmed (s : str) : Prop := clean_head s /\ clean_head (rev s).

(** The texts an [mlx_whisper] result offers: those of its segments
    when it has any, else its full text, else nothing. *)
Definition mlx_raw_texts (r : mlx_result) : list str :=
  match r with
  | MlxDict (Some (s :: l)) _ =>
      map (fun segment => get_default (ms_text segment) (lit "")) (s :: l)
  | MlxDict _ (Some t) => [t]
  | _ => []
  end.

(** The texts an API response offers: those of its segments when it
    has any, else its full text. *)
Definition openai_raw_texts (r : openai_response) : list str :=
  match resp_segments r with
  | Some (s :: l) => map os_text (s :: l)
  | _ => [resp_text r]
  end.

(** The names under which a quantized model can be asked of
    faster-whisper: a size, a dot or a dash, "int8". *)
Definition int8_name (size sep : str) : str := size ++ sep ++ lit "int8".

(** The transcribe arguments with another beam size. *)
Definition with_beam_size (kwargs : transcribe_kwargs) (b : option Z)
  : transcribe_kwargs :=
  mkKwargs (kw_language kwargs) (kw_initial_prompt kwargs) b.

(** A machine on which [whisper] is the only engine that imports. *)
Definition whisper_only_env : Env :=
  mkEnv (lit "x86_64") (lit "Linux") None None true None None.

(** A faster-whisper package whose models answer with two segments. *)
Definition example_fw : faster_whisper_module :=
  mkFwModule
    (fun _ _ _ _ =>
       Return (mkFwModel (fun _ _ _ _ =>
         Return (Generator [text_segment " so "; text_segment "long"] None,
                 mkTranscriptionInfo (lit "en")))))
    [lit "en"; lit "de"] (lit "1.0.3").

Definition example_fw_env : Env :=
  mkEnv (lit "x86_64") (lit "Linux") None (Some example_fw) false None None.

Definition example_fw_backend : FasterWhisperBackend.t :=
  FasterWhisperBackend.mk
    (mkFwModel (fun _ _ _ _ =>
       Return (Generator [text_segment " so "; text_segment "long"] None,
               mkTranscriptionInfo (lit "en"))))
    example_fw.

(** An [mlx_whisper] result with a blank segment among two others. *)
Definition example_mlx_result : mlx_result :=
  MlxDict (Some [mkMlxSegment (Some (lit " good ")) None None;
                 mkMlxSegment (Some (lit "   ")) None None;
                 mkMlxSegment (Some (lit "morning")) None None])
          (Some (lit "ignored")).

Definition example_mlx_segments_backend : MLXWhisperBackend.t :=
  MLXWhisperBackend.mk
    (mkMlxModule (fun _ _ => Return example_mlx_result) None)
    (lit "mlx-community/whisper-tiny-mlx").

(** A method writes no event. *)
Definition writes_nothing {A} (m : M A) : Prop :=
  forall self, written (m self) = [].

(* ================================================================== *)
(** * Properties *)
(* ================================================================== *)

(** ** Strings *)

Lemma str_eqb_eq (a b : str) : str_eqb a b = true <-> a = b.
Proof.
  unfold str_eqb. destruct (list_eq_dec N.eq_dec a b); split; congruence.
Qed.

Lemma str_eqb_refl (a : str) : str_eqb a a = true.
Proof. now apply str_eqb_eq. Qed.

Lemma str_eqb_neq (a b : str) : str_eqb a b = false <-> a <> b.
Proof.
  unfold str_eqb. destruct (list_eq_dec N.eq_dec a b); split; congruence.
Qed.

Lemma truthy_false (s : str) : truthy s = false <-> s = [].
Proof. destruct s; simpl; split; congruence. Qed.

Lemma truthy_true (s : str) : truthy s = true <-> s <> [].
Proof. destruct s; simpl; split; congruence. Qed.

Lemma lstrip_clean_head (s : str) : clean_head (lstrip s).
Proof.
  induction s as [|c s IH]; simpl; [exact I|].
  destruct (isspace c) eqn:E; [exact IH | exact E].
Qed.

Lemma lstrip_fixed (s : str) : clean_head s -> lstrip s = s.
Proof.
  destruct s as [|c s]; simpl; [reflexivity|].
  intros ->. reflexivity.
Qed.

Lemma lstrip_idem (s : str) : lstrip (lstrip s) = lstrip s.
Proof. apply lstrip_fixed, lstrip_clean_head. Qed.

Lemma lstrip_snoc (s : str) (c : N) :
  isspace c = false -> exists u, lstrip (s ++ [c]) = u ++ [c].
Proof.
  intros Hc. induction s as [|d s IH]; simpl.
  - rewrite Hc. now exists [].
  - destruct (isspace d); [exact IH|]. now exists (d :: s).
Qed.

Lemma rstrip_clean_head (s : str) : clean_head s -> clean_head (rstrip s).
Proof.
  destruct s as [|c s]; [intros _; exact I|].
  simpl. intros Hc. unfold rstrip. simpl rev.
  destruct (lstrip_snoc (rev s) c Hc) as [u ->].
  rewrite rev_app_distr. simpl. exact Hc.
Qed.

Lemma rstrip_idem (s : str) : rstrip (rstrip s) = rstrip s.
Proof.
  unfold rstrip. now rewrite rev_involutive, lstrip_idem.
Qed.

(** Trimming twice is trimming once. *)
Lemma strip_idem (s : str) : strip (strip s) = strip s.
Proof.
  unfold strip.
  rewrite (lstrip_fixed (rstrip (lstrip s))).
  - apply rstrip_idem.
  - apply rstrip_clean_head, lstrip_clean_head.
Qed.

Lemma strip_nil : strip [] = [].
Proof. reflexivity. Qed.

(** ** The handler's loop over the segments *)

Lemma collect_spec (acc : list str) (s : Segment) :
  collect acc s
  = acc ++ filter truthy [strip (segment_text s)].
Proof.
  unfold collect, segment_text. destruct (text s) as [t|]; simpl.
  - destruct t as [|c t]; simpl.
    + now rewrite app_nil_r.
    + destruct (truthy (strip (c :: t))); [reflexivity | now rewrite app_nil_r].
  - now rewrite app_nil_r.
Qed.

Lemma fold_collect (segments : list Segment) (acc : list str) :
  fold_left collect segments acc
  = acc ++ filter truthy (map (fun s => strip (segment_text s)) segments).
Proof.
  revert acc. induction segments as [|s l IH]; intros acc; simpl.
  - now rewrite app_nil_r.
  - rewrite IH, collect_spec. simpl.
    destruct (truthy (strip (segment_text s))); simpl.
    + now rewrite <- app_assoc.
    + now rewrite app_nil_r.
Qed.

Lemma for_segments_ok (segments : list Segment) :
  for_segments (Generator segments None)
  = Return (filter truthy (map (fun s => strip (segment_text s)) segments)).
Proof. unfold for_segments. simpl. now rewrite fold_collect. Qed.

(** ** One step of the handler, by event and state *)

Lemma close_ready (w : Wave_write) :
  header_ready w = true -> wave.close w = Return w.
Proof.
  unfold header_ready, wave.close, wave._ensure_header_written.
  intros H. apply andb_prop in H as [H H4]. apply andb_prop in H as [H H3].
  apply andb_prop in H as [H1 H2].
  apply negb_true_iff in H1, H2, H3, H4. rewrite H1, H2, H3.
  destruct (wave.pack_header _ _ _); [discriminate H4 | reflexivity].
Qed.

Lemma audio_stop_recording (self : WhisperEventHandler) (w : Wave_write) :
  _wav_file self = Some w -> header_ready w = true ->
  handle_event AudioStop self
  = mkStep (after_utterance self w)
           [Transcript (transcription_text (at_transcription self w))]
           (Return false).
Proof.
  intros Hw Hr. destruct self as [cli info b ip lang wf path].
  simpl in Hw. subst wf.
  unfold handle_event, handle_audio_stop, bind, get_self, on_wav_file, bind,
    get_self. simpl.
  rewrite (close_ready w Hr). reflexivity.
Qed.

Lemma audio_stop_idle (self : WhisperEventHandler) :
  _wav_file self = None ->
  handle_event AudioStop self = mkStep self [] (Raise AssertionError).
Proof.
  intros Hw. destruct self as [cli info b ip lang wf path].
  simpl in Hw. subst wf. reflexivity.
Qed.

Lemma transcription_text_ok (self : WhisperEventHandler)
    (segments : list Segment) :
  transcribe (backend self) (_wav_path self) (transcription_kwargs self)
  = Return (Generator segments None) ->
  transcription_text self = TranscriptResult segments.
Proof.
  intros H. unfold transcription_text, try_transcribe. rewrite H.
  cbv beta iota. rewrite for_segments_ok. reflexivity.
Qed.

Lemma transcription_text_fails (self : WhisperEventHandler) (e : exn) :
  backend_fails self (_wav_path self) e ->
  transcription_text self = lit "".
Proof.
  intros [H | [segments H]]; unfold transcription_text, try_transcribe;
    rewrite H; reflexivity.
Qed.

Lemma example_recording_wav (b : WhisperBackend) :
  _wav_file (example_recording b) = Some example_wave.
Proof. reflexivity. Qed.

(** ** C3: the transcript is the joined trimmed texts *)

(** C3.  When the backend returns a segment sequence, the transcript the
    handler writes is the trimmed texts of the segments whose trimmed
    text is not empty, joined by one space, in segment order; for the
    texts "hello", "  ", "world" that is "hello world", and for no
    segment at all it is the empty string. *)
Theorem transcript_joins_trimmed_segment_texts :
  (forall (self : WhisperEventHandler) (w : Wave_write)
          (segments : list Segment),
      _wav_file self = Some w ->
      header_ready w = true ->
      transcribe (backend self) (Some w) (transcription_kwargs self)
      = Return (Generator segments None) ->
      written (handle_event AudioStop self)
      = [Transcript (TranscriptResult segments)])
  /\ TranscriptResult
       [text_segment "hello"; text_segment "  "; text_segment "world"]
     = lit "hello world"
  /\ TranscriptResult [] = lit "".
Proof.
  split; [|split; reflexivity].
  intros self w segments Hw Hr Hb.
  rewrite (audio_stop_recording self Hw Hr). simpl. f_equal. f_equal.
  apply transcription_text_ok. exact Hb.
Qed.

Lemma transcript_joins_trimmed_segment_texts_witness :
  written (handle_event AudioStop
             (example_recording
                (mock_backend [text_segment "hello"; text_segment "  ";
                               text_segment "world"])))
  = [Transcript (lit "hello world")].
Proof.
  exact (proj1 transcript_joins_trimmed_segment_texts
           (example_recording
              (mock_backend [text_segment "hello"; text_segment "  ";
                             text_segment "world"]))
           example_wave
           [text_segment "hello"; text_segment "  "; text_segment "world"]
           eq_refl eq_refl eq_refl).
Defined.

(** ** C10: a language-set event without a language *)

(** C10.  A language-set event whose language is absent or empty changes
    nothing in the session, writes nothing and keeps the session; one
    with a non-empty language changes the language override and nothing
    else. *)
Theorem transcribe_without_language_is_inert (self : WhisperEventHandler) :
  handle_event (Transcribe None) self = mkStep self [] (Return true)
  /\ handle_event (Transcribe (Some [])) self = mkStep self [] (Return true)
  /\ forall c l,
       handle_event (Transcribe (Some (c :: l))) self
       = mkStep (mkHandler (cli_args self) (wyoming_info_event self)
                           (backend self) (initial_prompt self)
                           (Some (c :: l)) (_wav_file self) (_wav_path self))
                [] (Return true).
Proof. repeat split. Qed.

(** ** The descriptor is never touched *)

Lemma keeps_info_ret {A} (a : A) : keeps_info (ret a).
Proof. intros self. reflexivity. Qed.

Lemma keeps_info_raise {A} (e : exn) : keeps_info (@raise A e).
Proof. intros self. reflexivity. Qed.

Lemma keeps_info_bind {A B} (m : M A) (f : A -> M B) :
  keeps_info m -> (forall a, keeps_info (f a)) -> keeps_info (bind m f).
Proof.
  intros Hm Hf self. unfold bind.
  pose proof (Hm self) as H1.
  destruct (m self) as [self' out [e|a]]; simpl in *; [exact H1|].
  pose proof (Hf a self') as H2.
  destruct (f a self') as [self'' out' r]; simpl in *. congruence.
Qed.

Lemma keeps_info_get_self : keeps_info get_self.
Proof. intros self. reflexivity. Qed.

Lemma keeps_info_set_wav_file v : keeps_info (set_wav_file v).
Proof. intros self. reflexivity. Qed.

Lemma keeps_info_set_wav_path v : keeps_info (set_wav_path v).
Proof. intros self. reflexivity. Qed.

Lemma keeps_info_set_language v : keeps_info (set_language v).
Proof. intros self. reflexivity. Qed.

Lemma keeps_info_write_event ev : keeps_info (write_event ev).
Proof. intros self. reflexivity. Qed.

Lemma keeps_info_on_wav_file method : keeps_info (on_wav_file method).
Proof.
  unfold on_wav_file. apply keeps_info_bind; [apply keeps_info_get_self|].
  intros self. destruct (_wav_file self); [|apply keeps_info_raise].
  destruct (method w); [apply keeps_info_raise | apply keeps_info_set_wav_file].
Qed.

Create HintDb keeps.

#[local] Hint Resolve keeps_info_ret keeps_info_raise keeps_info_get_self
  keeps_info_set_wav_file keeps_info_set_wav_path keeps_info_set_language
  keeps_info_write_event keeps_info_on_wav_file : keeps.

Ltac keeps_step :=
  repeat (first [ solve [auto with keeps] | apply keeps_info_bind; [|intros ?] ]).

Lemma keeps_info_handle_event (event : Event) : keeps_info (handle_event event).
Proof.
  destruct event; cbn [handle_event];
    unfold handle_audio_chunk, handle_audio_stop, handle_transcribe,
      handle_describe;
    keeps_step.
  - destruct (_wav_file a); keeps_step.
  - destruct (_wav_file a); keeps_step.
  - destruct language as [[|c l]|]; keeps_step.
Qed.

Lemma keeps_info_handle_all (events : list Event) (self : WhisperEventHandler) :
  wyoming_info_event (handle_all events self) = wyoming_info_event self.
Proof.
  revert self. induction events as [|ev l IH]; intros self; simpl.
  - reflexivity.
  - unfold handle_all in *. simpl. rewrite IH. apply keeps_info_handle_event.
Qed.

Lemma describe_step (self : WhisperEventHandler) :
  handle_event Describe self
  = mkStep self [wyoming_info_event self] (Return true).
Proof. reflexivity. Qed.

(** ** Between two events the buffer is absent or has its header *)

Lemma new_handler_idle info args b ip :
  idle (new_handler info args b ip) = true.
Proof. reflexivity. Qed.

Lemma unset_positive (z : Z) : (0 < z)%Z -> wave.unset (Some z) = false.
Proof. intros H. simpl. apply Z.eqb_neq. lia. Qed.

Lemma writeframes_ready (w : Wave_write) (data : list Byte.byte) :
  header_ready w = true ->
  wave.writeframes w data
  = Return (mkWave (_framerate w) (_sampwidth w) (_nchannels w)
                   (_frames w ++ data)).
Proof.
  intros H. unfold wave.writeframes.
  pose proof (close_ready w H) as Hc. unfold wave.close in Hc.
  now rewrite Hc.
Qed.

Lemma audio_chunk_recording (self : WhisperEventHandler) (w : Wave_write)
    (rate width channels : Z) (audio : list Byte.byte) :
  _wav_file self = Some w -> header_ready w = true ->
  handle_event (AudioChunk rate width channels audio) self
  = mkStep (mkHandler (cli_args self) (wyoming_info_event self) (backend self)
              (initial_prompt self) (_language self)
              (Some (mkWave (_framerate w) (_sampwidth w) (_nchannels w)
                            (_frames w ++ audio)))
              (_wav_path self))
           [] (Return true).
Proof.
  intros Hw Hr. destruct self as [cli info b ip lang wf path].
  simpl in Hw. subst wf.
  unfold handle_event, handle_audio_chunk, bind, get_self, on_wav_file, bind,
    get_self. simpl.
  rewrite (writeframes_ready w audio Hr). reflexivity.
Qed.

(** The first chunk of an utterance, when its format passes the
    setters: the header is packed at the first write, and the chunk is
    accepted exactly when the header fits. *)
Lemma audio_chunk_first (self : WhisperEventHandler)
    (rate width channels : Z) (audio : list Byte.byte) :
  _wav_file self = None ->
  (0 < rate)%Z -> (1 <= width <= 4)%Z -> (1 <= channels)%Z ->
  handle_event (AudioChunk rate width channels audio) self
  = match wave.pack_header channels width rate with
    | Some e =>
        mkStep (mkHandler (cli_args self) (wyoming_info_event self)
                  (backend self) (initial_prompt self) (_language self)
                  (Some (mkWave (Some rate) (Some width) (Some channels) []))
                  (Some wave.open))
               [] (Raise e)
    | None =>
        mkStep (mkHandler (cli_args self) (wyoming_info_event self)
                  (backend self) (initial_prompt self) (_language self)
                  (Some (mkWave (Some rate) (Some width) (Some channels)
                                audio))
                  (Some wave.open))
               [] (Return true)
    end.
Proof.
  intros Hw Hrate Hwidth Hch. destruct self as [cli info b ip lang wf path].
  simpl in Hw. subst wf.
  unfold handle_event, handle_audio_chunk, bind, get_self, on_wav_file, bind,
    get_self. simpl.
  unfold wave.setframerate.
  destruct (Z.leb_spec rate 0) as [?|_]; [lia|]. simpl.
  unfold wave.setsampwidth. simpl.
  destruct (Z.ltb_spec width 1) as [?|_]; [lia|].
  destruct (Z.ltb_spec 4 width) as [?|_]; [lia|]. simpl.
  unfold wave.setnchannels. simpl.
  destruct (Z.ltb_spec channels 1) as [?|_]; [lia|]. simpl.
  unfold wave.writeframes, wave._ensure_header_written.
  cbn [_nchannels _sampwidth _framerate _frames wave.unset get_default].
  destruct (Z.eqb_spec channels 0) as [?|_]; [lia|].
  destruct (Z.eqb_spec width 0) as [?|_]; [lia|].
  destruct (Z.eqb_spec rate 0) as [?|_]; [lia|].
  destruct (wave.pack_header channels width rate); reflexivity.
Qed.




(** A chunk that is handled without an exception leaves the session
    recording. *)
Lemma audio_chunk_then_recording (self : WhisperEventHandler)
    (rate width channels : Z) (audio : list Byte.byte) :
  well_formed self = true ->
  (exists b, returned (handle_event (AudioChunk rate width channels audio) self)
             = Return b) ->
  recording (after (handle_event (AudioChunk rate width channels audio) self))
  = true.
Proof.
  intros Hwf [b Hb].
  destruct (_wav_file self) as [w|] eqn:Hw.
  - assert (Hr : header_ready w = true).
    { unfold well_formed, idle, recording in Hwf. rewrite Hw in Hwf.
      simpl in Hwf. exact Hwf. }
    rewrite (audio_chunk_recording self rate width channels audio Hw Hr).
    unfold recording. simpl. exact Hr.
  - destruct (Z.leb_spec rate 0) as [Hrate|Hrate];
    [|destruct (Z.ltb_spec width 1) as [Hw1|Hw1];
      [|destruct (Z.ltb_spec 4 width) as [Hw4|Hw4];
        [|destruct (Z.ltb_spec channels 1) as [Hc|Hc]]]].
    5: { revert Hb.
         rewrite (audio_chunk_first self audio Hw) by (assumption || lia).
         destruct (wave.pack_header channels width rate) eqn:Hpack;
           [discriminate|].
         intros _. unfold recording, header_ready.
         cbn [after _wav_file _nchannels _sampwidth _framerate get_default].
         rewrite !unset_positive by lia. rewrite Hpack. reflexivity. }
    all: exfalso; revert Hb;
      destruct self as [cli info bk ip lang wf path]; simpl in Hw; subst wf;
      unfold handle_event, handle_audio_chunk, bind, get_self, on_wav_file,
        bind, get_self; simpl;
      unfold wave.setframerate, wave.setsampwidth, wave.setnchannels; simpl.
    + destruct (Z.leb_spec rate 0); [simpl; discriminate | lia].
    + destruct (Z.leb_spec rate 0); [lia|]. simpl.
      destruct (Z.ltb_spec width 1); [simpl; discriminate | lia].
    + destruct (Z.leb_spec rate 0); [lia|]. simpl.
      destruct (Z.ltb_spec width 1); [lia|].
      destruct (Z.ltb_spec 4 width); [simpl; discriminate | lia].
    + destruct (Z.leb_spec rate 0); [lia|]. simpl.
      destruct (Z.ltb_spec width 1); [lia|].
      destruct (Z.ltb_spec 4 width); [lia|]. simpl.
      destruct (Z.ltb_spec channels 1); [simpl; discriminate | lia].
Qed.

(** Whatever event is handled without an exception, the session is
    afterwards idle or recording. *)
Lemma handle_event_well_formed (event : Event) (self : WhisperEventHandler) :
  well_formed self = true ->
  (exists b, returned (handle_event event self) = Return b) ->
  well_formed (after (handle_event event self)) = true.
Proof.
  intros Hwf Hret. destruct event; try exact Hwf.
  - unfold well_formed.
    rewrite (audio_chunk_then_recording self rate width channels audio Hwf Hret).
    apply orb_true_r.
  - destruct (_wav_file self) as [w|] eqn:Hw.
    + assert (Hr : header_ready w = true).
      { unfold well_formed, idle, recording in Hwf. rewrite Hw in Hwf.
        exact Hwf. }
      rewrite (audio_stop_recording self Hw Hr). reflexivity.
    + rewrite (audio_stop_idle self Hw). exact Hwf.
  - destruct language as [[|c l]|]; exact Hwf.
Qed.

(** ** The registry *)

Lemma registry_names (env : Env) :
  WhisperBackendFactory.get_available_backends
    (WhisperBackendFactory._backends env)
  = [lit "faster-whisper"; lit "mlx-whisper"; lit "openai-whisper"].
Proof. reflexivity. Qed.

Lemma create_backend_unknown (env : Env) (name model_name : str)
    (kwargs : backend_kwargs) :
  in_list name [lit "faster-whisper"; lit "mlx-whisper"; lit "openai-whisper"]
  = false ->
  exists msg,
    WhisperBackendFactory.create_backend (WhisperBackendFactory._backends env)
      name model_name kwargs
    = Raise (ValueError msg).
Proof.
  unfold in_list. cbn [existsb]. intros H.
  apply orb_false_elim in H as [H1 H]. apply orb_false_elim in H as [H2 H].
  apply orb_false_elim in H as [H3 _].
  unfold WhisperBackendFactory.create_backend.
  cbn [WhisperBackendFactory.lookup WhisperBackendFactory._backends].
  assert (E : forall a b, str_eqb a b = str_eqb b a).
  { intros a b. destruct (str_eqb a b) eqn:E1.
    - apply str_eqb_eq in E1. subst. now rewrite str_eqb_refl.
    - apply str_eqb_neq in E1. symmetry. apply str_eqb_neq. congruence. }
  rewrite (E _ name), H1, (E _ name), H2, (E _ name), H3. eauto.
Qed.

Lemma register_backend_lookup (d : WhisperBackendFactory.registry)
    (name : str) (cls : WhisperBackendFactory.backend_class) :
  WhisperBackendFactory.lookup
    (WhisperBackendFactory.register_backend d name cls) name
  = Some cls.
Proof.
  induction d as [|[k v] d IH]; simpl.
  - now rewrite str_eqb_refl.
  - destruct (str_eqb k name) eqn:E; simpl; rewrite E; [reflexivity|exact IH].
Qed.

(** ** C2: one transcript reply per utterance, empty when the backend fails *)

(** C2.  When an utterance is ended by AudioStop (a buffer is open),
    the handler writes exactly one Transcript event and does not raise.
    If the backend call, or the consumption of its segment sequence,
    raises an exception, the text of that reply is the empty string, so
    that nothing of the exception reaches the client. *)
Theorem audio_stop_replies_with_one_transcript
    (self : WhisperEventHandler) (w : Wave_write) :
  _wav_file self = Some w ->
  header_ready w = true ->
  (exists reply, written (handle_event AudioStop self) = [Transcript reply])
  /\ (exists b, returned (handle_event AudioStop self) = Return b)
  /\ forall e,
       backend_fails (at_transcription self w) (Some w) e ->
       written (handle_event AudioStop self) = [Transcript (lit "")]
       /\ returned (handle_event AudioStop self) = Return false.
Proof.
  intros Hw Hr. rewrite (audio_stop_recording self Hw Hr). simpl.
  split; [eauto|]. split; [eauto|].
  intros e He. split; [|reflexivity].
  f_equal. f_equal.
  apply (@transcription_text_fails (at_transcription self w) e).
  exact He.
Qed.

Lemma audio_stop_replies_with_one_transcript_witness :
  written (handle_event AudioStop
             (example_recording
                (breaking_backend [text_segment "secret"]
                                  (EngineError (lit "boom")))))
  = [Transcript (lit "")]
  /\ returned (handle_event AudioStop
                 (example_recording
                    (breaking_backend [text_segment "secret"]
                                      (EngineError (lit "boom")))))
     = Return false.
Proof.
  apply (proj2 (proj2
           (audio_stop_replies_with_one_transcript
              (example_recording
                 (breaking_backend [text_segment "secret"]
                                   (EngineError (lit "boom"))))
              (w := example_wave) eq_refl eq_refl))
           (EngineError (lit "boom"))).
  right. exists [text_segment "secret"]. reflexivity.
Defined.

(** ** C8: what the end of an utterance leaves behind *)

(** C8, as the code has it.  After a completed utterance the language
    override is again the start-up default and no buffer is open; the
    handler returns [False], which ends the session: the events that
    follow on the connection are not handled.  (A language-set event
    with a non-empty language, handled in that state, would set the
    override.) *)
Theorem utterance_end_resets_language_and_ends_session
    (self : WhisperEventHandler) (w : Wave_write) :
  _wav_file self = Some w ->
  header_ready w = true ->
  _language (after (handle_event AudioStop self))
  = args_language (cli_args self)
  /\ idle (after (handle_event AudioStop self)) = true
  /\ ends_session (handle_event AudioStop self)
  /\ (forall rest,
        run (AudioStop :: rest) self
        = (after (handle_event AudioStop self),
           written (handle_event AudioStop self)))
  /\ (forall c l,
        _language (after (handle_event (Transcribe (Some (c :: l)))
                            (after (handle_event AudioStop self))))
        = Some (c :: l)).
Proof.
  intros Hw Hr. unfold ends_session.
  repeat split.
  - now rewrite (audio_stop_recording self Hw Hr).
  - now rewrite (audio_stop_recording self Hw Hr).
  - now rewrite (audio_stop_recording self Hw Hr).
  - intros rest. cbn [run]. now rewrite (audio_stop_recording self Hw Hr).
Qed.

Lemma utterance_end_resets_language_and_ends_session_witness :
  _language (after (handle_event AudioStop
                      (after (handle_event (Transcribe (Some (lit "fr")))
                                (example_recording (mock_backend []))))))
  = Some (lit "en")
  /\ ends_session
       (handle_event AudioStop
          (after (handle_event (Transcribe (Some (lit "fr")))
                    (example_recording (mock_backend []))))).
Proof.
  pose proof
    (utterance_end_resets_language_and_ends_session
       (after (handle_event (Transcribe (Some (lit "fr")))
                 (example_recording (mock_backend []))))
       (w := example_wave) eq_refl eq_refl) as H.
  split; [exact (proj1 H) | exact (proj1 (proj2 (proj2 H)))].
Defined.

(** C8, as stated, fails: after a completed utterance the session is
    not kept for further events.  Here a Describe request that follows
    the AudioStop on the same connection gets no reply. *)
Lemma session_ends_after_utterance :
  recording (example_recording (mock_backend [text_segment "hi"])) = true
  /\ ~ keeps_session
       (handle_event AudioStop
          (example_recording (mock_backend [text_segment "hi"])))
  /\ snd (run [AudioStop; Describe]
            (example_recording (mock_backend [text_segment "hi"])))
     = [Transcript (lit "hi")].
Proof.
  split; [reflexivity|]. split; [|reflexivity].
  unfold keeps_session. simpl. discriminate.
Qed.

(** ** C9: one descriptor, served unchanged *)

Lemma main_serving (__version__ : str) (env : Env) (parsed args : Namespace)
    (b : WhisperBackend) (info : Info) :
  main __version__ env parsed = Serving args b info ->
  exists model_name,
    resolve_args env parsed = Return (model_name, args)
    /\ WhisperBackendFactory.create_backend
         (WhisperBackendFactory._backends env)
         (args_backend args) (args_model args) (main_backend_kwargs args)
       = Return b
    /\ info = build_info __version__ args model_name b.
Proof.
  unfold main. destruct (resolve_args env parsed) as [e|[model_name args']];
    [discriminate|].
  destruct (WhisperBackendFactory.create_backend _ _ _ _) as [e|b'] eqn:Hb;
    [discriminate|].
  intros H. injection H as <- <- <-. exists model_name. auto.
Qed.

(** C9.  [main] builds the descriptor once, for the backend it has
    created: the descriptor names one program, the backend, with the
    backend's attribution and the version of the package; that program
    has one model, whose name is the resolved model name and which
    carries the backend's attribution, its supported languages and its
    version.  Every session gets that descriptor; a Describe request is
    answered with it in whatever state the session is, after whatever
    events, and leaves the session as it was; so the replies to two
    Describe requests, one before and one after a transcription, are
    equal. *)
Theorem describe_serves_the_startup_descriptor
    (__version__ : str) (env : Env) (parsed args : Namespace)
    (b : WhisperBackend) (info : Info) :
  main __version__ env parsed = Serving args b info ->
  (exists model_name program model,
      resolve_args env parsed = Return (model_name, args)
      /\ WhisperBackendFactory.create_backend
           (WhisperBackendFactory._backends env)
           (args_backend args) (args_model args) (main_backend_kwargs args)
         = Return b
      /\ info = build_info __version__ args model_name b
      /\ asr info = [program]
      /\ ap_name program = args_backend args
      /\ ap_description program
         = lit "Whisper transcription using " ++ args_backend args
      /\ ap_attribution program = get_attribution b
      /\ ap_installed program = true
      /\ ap_version program = __version__
      /\ ap_models program = [model]
      /\ am_name model = model_name
      /\ am_description model = model_name
      /\ am_attribution model = get_attribution b
      /\ am_installed model = true
      /\ am_languages model = get_supported_languages b
      /\ am_version model = get_version b)
  /\ (forall events : list Event,
        handle_event Describe (handle_all events (session_handler args b info))
        = mkStep (handle_all events (session_handler args b info))
                 [Info_event info] (Return true))
  /\ (forall before between : list Event,
        written (handle_event Describe
                   (handle_all before (session_handler args b info)))
        = written (handle_event Describe
                     (handle_all (before ++ Describe :: between)
                                 (session_handler args b info)))).
Proof.
  intros Hmain.
  assert (Hd : forall events : list Event,
             handle_event Describe
               (handle_all events (session_handler args b info))
             = mkStep (handle_all events (session_handler args b info))
                      [Info_event info] (Return true)).
  { intros events. rewrite describe_step, keeps_info_handle_all. reflexivity. }
  split; [|split].
  - destruct (main_serving _ _ _ Hmain) as [model_name (Hr & Hb & Hi)].
    subst info. unfold build_info. cbn [asr].
    eexists model_name, _, _.
    split; [exact Hr|]. split; [exact Hb|].
    repeat (split; [reflexivity|]). reflexivity.
  - exact Hd.
  - intros before between. now rewrite !Hd.
Qed.

Lemma describe_serves_the_startup_descriptor_witness :
  written (handle_event Describe
             (session_handler example_started_args example_started_backend
                              example_started_info))
  = written (handle_event Describe
               (handle_all
                  ([] ++ [Describe; AudioChunk 16000 2 1 []; AudioStop])
                  (session_handler example_started_args
                                   example_started_backend
                                   example_started_info))).
Proof.
  exact (proj2 (proj2
           (describe_serves_the_startup_descriptor
              (lit "1.0.0") example_env example_parsed eq_refl))
           [] [AudioChunk 16000 2 1 []; AudioStop]).
Defined.

(** ** C5: automatic choice of the backend *)

Lemma detect_cases (env : Env) :
  detect_optimal_backend env
  = if is_apple_silicon (lower (platform_system env))
                        (lower (platform_machine env))
       && is_some (import_mlx_whisper env)
    then Return (lit "mlx-whisper")
    else if is_some (import_faster_whisper env)
    then Return (lit "faster-whisper")
    else if import_whisper env then Return (lit "openai-whisper")
    else Raise (ImportError no_backend_message).
Proof.
  unfold detect_optimal_backend, try_import.
  destruct (is_apple_silicon _ _), (is_some (import_mlx_whisper env));
    reflexivity.
Qed.

(** Splits a statement made of conjunctions and equivalences between
    closed equations, and settles each part by computation. *)
Ltac settle_cases :=
  repeat match goal with
         | |- _ /\ _ => split
         | |- _ <-> _ => split
         | |- _ -> _ => intro
         | H : _ /\ _ |- _ => destruct H
         end;
  try reflexivity; try discriminate;
  try (exfalso;
       match goal with
       | H : _ = _ |- _ => vm_compute in H; discriminate H
       end).

(** C5.  [detect_optimal_backend] is a function of the platform and of
    the installed packages, and the first match wins: it returns
    "mlx-whisper" exactly when the platform is Apple silicon and
    [mlx_whisper] can be imported; otherwise "faster-whisper" exactly
    when [faster_whisper] can be imported; otherwise "openai-whisper"
    exactly when [whisper] can be imported; otherwise it raises
    [ImportError].  In particular it raises when none of the three can
    be imported. *)
Theorem detect_optimal_backend_first_match (env : Env) :
  let apple := is_apple_silicon (lower (platform_system env))
                                (lower (platform_machine env)) in
  let mlx := is_some (import_mlx_whisper env) in
  let fw := is_some (import_faster_whisper env) in
  let base := import_whisper env in
  (detect_optimal_backend env = Return (lit "mlx-whisper")
   <-> apple && mlx = true)
  /\ (detect_optimal_backend env = Return (lit "faster-whisper")
      <-> apple && mlx = false /\ fw = true)
  /\ (detect_optimal_backend env = Return (lit "openai-whisper")
      <-> apple && mlx = false /\ fw = false /\ base = true)
  /\ (detect_optimal_backend env = Raise (ImportError no_backend_message)
      <-> apple && mlx = false /\ fw = false /\ base = false)
  /\ (mlx = false -> fw = false -> base = false ->
      detect_optimal_backend env = Raise (ImportError no_backend_message)).
Proof.
  cbv zeta. rewrite detect_cases.
  destruct (is_apple_silicon _ _), (is_some (import_mlx_whisper env)),
    (is_some (import_faster_whisper env)), (import_whisper env);
    cbn [andb]; settle_cases.
Qed.

Lemma detect_optimal_backend_first_match_witness :
  detect_optimal_backend
    (mkEnv (lit "x86_64") (lit "Linux") None None false None None)
  = Raise (ImportError no_backend_message).
Proof.
  exact (proj2 (proj2 (proj2 (proj2
           (detect_optimal_backend_first_match
              (mkEnv (lit "x86_64") (lit "Linux") None None false None
                     None)))))
           eq_refl eq_refl eq_refl).
Defined.

(** ** C6: automatic choice of the model *)

Lemma auto_backend_model (env : Env) (args args' : Namespace) :
  auto_backend env args = Return args' -> args_model args' = args_model args.
Proof.
  unfold auto_backend. destruct (str_eqb _ _).
  - destruct (detect_optimal_backend env); [discriminate|].
    intros H. injection H as <-. reflexivity.
  - intros H. injection H as <-. reflexivity.
Qed.

Lemma default_download_dir_model (args args' : Namespace) :
  default_download_dir args = Return args' ->
  args_model args' = args_model args /\ args_backend args' = args_backend args.
Proof.
  unfold default_download_dir. destruct (otruthy _).
  - intros H. injection H as <-. auto.
  - destruct (args_data_dir args); [discriminate|].
    intros H. injection H as <-. auto.
Qed.

Lemma auto_beam_size_model (is_arm : bool) (args args' : Namespace) :
  auto_beam_size is_arm args = Return args' ->
  args_model args' = args_model args /\ args_backend args' = args_backend args.
Proof.
  unfold auto_beam_size. destruct (args_beam_size args); [|discriminate].
  destruct (_ <=? _)%Z; intros H; injection H as <-; auto.
Qed.

Lemma auto_model_backend (is_arm : bool) (args : Namespace) :
  args_backend (auto_model is_arm args) = args_backend args.
Proof.
  unfold auto_model. destruct (str_eqb _ _); [|reflexivity].
  destruct (str_eqb _ _); reflexivity.
Qed.

Lemma resolve_model_default (args : Namespace) :
  args_model args = lit "mlx-community/whisper-tiny-mlx"
  \/ args_model args = lit "tiny-int8"
  \/ args_model args = lit "base-int8" ->
  fst (resolve_model args) = args_model args
  /\ args_backend (snd (resolve_model args)) = args_backend args.
Proof.
  unfold resolve_model. intros H.
  destruct (str_eqb (args_backend args) (lit "faster-whisper")); [|auto].
  destruct H as [-> | [-> | ->]]; split; reflexivity.
Qed.

Lemma auto_language_backend (args : Namespace) :
  args_backend (auto_language args) = args_backend args.
Proof.
  unfold auto_language. destruct (args_language args) as [l|]; [|reflexivity].
  destruct (str_eqb l _); reflexivity.
Qed.

(** The model selected when the configured model is "auto". *)
Lemma auto_model_auto (is_arm : bool) (args : Namespace) :
  args_model args = lit "auto" ->
  args_model (auto_model is_arm args)
  = if str_eqb (args_backend args) (lit "mlx-whisper")
    then lit "mlx-community/whisper-tiny-mlx"
    else if is_arm then lit "tiny-int8" else lit "base-int8".
Proof.
  intros H. unfold auto_model. rewrite H, str_eqb_refl.
  destruct (str_eqb _ _); reflexivity.
Qed.

(** C6.  The model is chosen automatically only when the configured
    model is "auto" (any other model is left as it is).  Then, if the
    selected backend is "mlx-whisper", the model is
    "mlx-community/whisper-tiny-mlx"; otherwise it is "tiny-int8" on an
    ARM-class machine and "base-int8" on any other; nothing else of the
    configuration changes.  In [main] the machine class is read from
    [platform.machine()], the backend is the one selected before, and
    the model so chosen is the model name that is advertised. *)
Theorem auto_model_selection (is_arm : bool) (args : Namespace) :
  (args_model args <> lit "auto" -> auto_model is_arm args = args)
  /\ (args_model args = lit "auto" ->
      (args_backend args = lit "mlx-whisper" ->
       args_model (auto_model is_arm args)
       = lit "mlx-community/whisper-tiny-mlx")
      /\ (args_backend args <> lit "mlx-whisper" -> is_arm = true ->
          args_model (auto_model is_arm args) = lit "tiny-int8")
      /\ (args_backend args <> lit "mlx-whisper" -> is_arm = false ->
          args_model (auto_model is_arm args) = lit "base-int8")
      /\ auto_model is_arm args
         = set_args_model args (args_model (auto_model is_arm args)))
  /\ (forall env parsed model_name args',
        resolve_args env parsed = Return (model_name, args') ->
        args_model parsed = lit "auto" ->
        model_name
        = if str_eqb (args_backend args') (lit "mlx-whisper")
          then lit "mlx-community/whisper-tiny-mlx"
          else if is_arm_machine (lower (platform_machine env))
               then lit "tiny-int8" else lit "base-int8").
Proof.
  split; [|split].
  - intros H. unfold auto_model. apply str_eqb_neq in H. now rewrite H.
  - intros H. unfold auto_model. rewrite H, str_eqb_refl.
    repeat split.
    + intros Hb. now rewrite Hb, str_eqb_refl.
    + intros Hb ->. apply str_eqb_neq in Hb. now rewrite Hb.
    + intros Hb ->. apply str_eqb_neq in Hb. now rewrite Hb.
    + destruct (str_eqb (args_backend args) (lit "mlx-whisper")); reflexivity.
  - intros env parsed model_name args' Hres Hauto.
    unfold resolve_args in Hres.
    destruct (default_download_dir parsed) as [e|a1] eqn:H1; [discriminate|].
    destruct (auto_backend env a1) as [e|a2] eqn:H2; [discriminate|].
    set (arm := is_arm_machine (lower (platform_machine env))) in *.
    destruct (auto_beam_size arm (auto_model arm a2)) as [e|a4] eqn:H4;
      [discriminate|].
    destruct (resolve_model a4) as [name a5] eqn:H5.
    injection Hres as -> <-.
    apply default_download_dir_model in H1 as [M1 _].
    apply auto_backend_model in H2.
    apply auto_beam_size_model in H4 as [M4 B4].
    assert (Ha2 : args_model a2 = lit "auto") by congruence.
    pose proof (auto_model_auto arm a2 Ha2) as M3.
    rewrite auto_model_backend in B4.
    assert (Hd : args_model a4 = lit "mlx-community/whisper-tiny-mlx"
                 \/ args_model a4 = lit "tiny-int8"
                 \/ args_model a4 = lit "base-int8").
    { rewrite M4, M3. destruct (str_eqb _ _); [auto|]. destruct arm; auto. }
    destruct (resolve_model_default a4 Hd) as [F B5].
    rewrite H5 in F, B5. simpl in F, B5.
    rewrite auto_language_backend, B5, B4, F, M4. exact M3.
Qed.

Lemma auto_model_selection_witness :
  lit "mlx-community/whisper-tiny-mlx"
  = if str_eqb (args_backend example_started_args) (lit "mlx-whisper")
    then lit "mlx-community/whisper-tiny-mlx"
    else if is_arm_machine (lower (platform_machine example_env))
         then lit "tiny-int8" else lit "base-int8".
Proof.
  exact (proj2 (proj2 (auto_model_selection true example_parsed))
           example_env example_parsed
           (lit "mlx-community/whisper-tiny-mlx") example_started_args
           eq_refl eq_refl).
Defined.

(** ** C7: what construction does *)

(** C7, as stated, fails: a model name that the backend does not know
    does not make construction fail.  The OpenAI backend, asked for
    "large-v3" (not among its valid models), is constructed with
    "whisper-1"; the MLX backend, asked for the same, is constructed
    with "mlx-community/whisper-tiny-mlx". *)
Lemma unsupported_model_name_is_accepted :
  in_list (lit "large-v3") OpenAIWhisperBackend.valid_models = false
  /\ OpenAIWhisperBackend.__init__ example_openai_env (lit "large-v3")
                                   no_backend_kwargs
     = Return example_openai_backend
  /\ startswith (lit "large-v3") (lit "mlx-community/") = false
  /\ in_list (lit "large-v3") MLXWhisperBackend.known_sizes = false
  /\ MLXWhisperBackend.__init__ example_env (lit "large-v3") no_backend_kwargs
     = Return (MLXWhisperBackend.mk example_mlx
                 (lit "mlx-community/whisper-tiny-mlx")).
Proof. repeat split. Qed.

(** C7, as the code has it.  Construction returns a backend or raises.
    It raises [ImportError] when the package of the backend is missing,
    and, for the OpenAI backend, [ValueError] when there is no API key
    (neither passed nor in the environment).  It does not fail on a
    model name that the backend does not know: the OpenAI backend then
    takes "whisper-1" and the MLX backend
    "mlx-community/whisper-tiny-mlx".  The faster-whisper backend hands
    the name to its engine and fails exactly when the engine does. *)
Theorem construction_outcomes (env : Env) (model_name : str)
    (kwargs : backend_kwargs) :
  (import_faster_whisper env = None ->
   exists msg, FasterWhisperBackend.__init__ env model_name kwargs
               = Raise (ImportError msg))
  /\ (import_mlx_whisper env = None ->
      exists msg, MLXWhisperBackend.__init__ env model_name kwargs
                  = Raise (ImportError msg))
  /\ (import_openai env = None ->
      exists msg, OpenAIWhisperBackend.__init__ env model_name kwargs
                  = Raise (ImportError msg))
  /\ (is_some (import_openai env) = true ->
      otruthy (por (bk_api_key kwargs) (getenv_OPENAI_API_KEY env)) = false ->
      exists msg, OpenAIWhisperBackend.__init__ env model_name kwargs
                  = Raise (ValueError msg))
  /\ (is_some (import_openai env) = true ->
      otruthy (por (bk_api_key kwargs) (getenv_OPENAI_API_KEY env)) = true ->
      exists self,
        OpenAIWhisperBackend.__init__ env model_name kwargs = Return self
        /\ OpenAIWhisperBackend.model_name self
           = if in_list model_name OpenAIWhisperBackend.valid_models
             then model_name else lit "whisper-1")
  /\ (is_some (import_mlx_whisper env) = true ->
      exists self,
        MLXWhisperBackend.__init__ env model_name kwargs = Return self
        /\ MLXWhisperBackend.model_path self
           = if startswith model_name (lit "mlx-community/") then model_name
             else if in_list model_name MLXWhisperBackend.known_sizes
             then lit "mlx-community/whisper-" ++ model_name ++ lit "-mlx"
             else lit "mlx-community/whisper-tiny-mlx")
  /\ (forall faster_whisper,
        import_faster_whisper env = Some faster_whisper ->
        (forall e,
            WhisperModel faster_whisper model_name (bk_download_dir kwargs)
              (get_default (bk_device kwargs) (lit "cpu"))
              (get_default (bk_compute_type kwargs) (lit "default"))
            = Raise e ->
            FasterWhisperBackend.__init__ env model_name kwargs = Raise e)
        /\ (forall m,
            WhisperModel faster_whisper model_name (bk_download_dir kwargs)
              (get_default (bk_device kwargs) (lit "cpu"))
              (get_default (bk_compute_type kwargs) (lit "default"))
            = Return m ->
            FasterWhisperBackend.__init__ env model_name kwargs
            = Return (FasterWhisperBackend.mk m faster_whisper))).
Proof.
  split; [|split; [|split; [|split; [|split; [|split]]]]];
    [| | | | | | intros faster_whisper Hfw; split].
  - intros H. unfold FasterWhisperBackend.__init__. rewrite H. eauto.
  - intros H. unfold MLXWhisperBackend.__init__. rewrite H. eauto.
  - intros H. unfold OpenAIWhisperBackend.__init__. rewrite H. eauto.
  - intros Hm Hk. unfold OpenAIWhisperBackend.__init__.
    destruct (import_openai env); [|discriminate].
    destruct (por _ _) as [[|c key]|]; [eauto | discriminate | eauto].
  - intros Hm Hk. unfold OpenAIWhisperBackend.__init__.
    destruct (import_openai env); [|discriminate].
    destruct (por _ _) as [[|c key]|]; [discriminate | | discriminate].
    destruct (in_list model_name _); simpl; eauto.
  - intros Hm. unfold MLXWhisperBackend.__init__.
    destruct (import_mlx_whisper env); [|discriminate]. eauto.
  - intros e H. unfold FasterWhisperBackend.__init__. rewrite Hfw, H.
    reflexivity.
  - intros m H. unfold FasterWhisperBackend.__init__. rewrite Hfw, H.
    reflexivity.
Qed.

Lemma construction_outcomes_witness :
  exists msg,
    OpenAIWhisperBackend.__init__
      (mkEnv (lit "x86_64") (lit "Linux") None None false
             (Some example_openai) None)
      (lit "whisper-1") no_backend_kwargs
    = Raise (ValueError msg).
Proof.
  exact (proj1 (proj2 (proj2 (proj2
           (construction_outcomes
              (mkEnv (lit "x86_64") (lit "Linux") None None false
                     (Some example_openai) None)
              (lit "whisper-1") no_backend_kwargs))))
           eq_refl eq_refl).
Defined.

(** ** What each backend's [transcribe] returns *)

Lemma mlx_transcribe_ok (self : MLXWhisperBackend.t) (audio : audio_file)
    (kwargs : transcribe_kwargs) (r : mlx_result) :
  mlx_transcribe (MLXWhisperBackend._mlx_whisper self) audio
                 (MLXWhisperBackend.transcribe_options self kwargs)
  = Return r ->
  MLXWhisperBackend.transcribe self audio kwargs
  = Return (Generator (MLXWhisperBackend.normalize r) None).
Proof.
  intros H. unfold MLXWhisperBackend.transcribe. now rewrite H.
Qed.

Lemma mlx_transcribe_fails (self : MLXWhisperBackend.t) (audio : audio_file)
    (kwargs : transcribe_kwargs) (e : exn) :
  mlx_transcribe (MLXWhisperBackend._mlx_whisper self) audio
                 (MLXWhisperBackend.transcribe_options self kwargs)
  = Raise e ->
  MLXWhisperBackend.transcribe self audio kwargs
  = Return (Generator [MLXWhisperBackend.Segment1 (lit "")] None).
Proof.
  intros H. unfold MLXWhisperBackend.transcribe. now rewrite H.
Qed.

Lemma mlx_transcribe_never_raises (self : MLXWhisperBackend.t)
    (audio : audio_file) (kwargs : transcribe_kwargs) :
  exists segments,
    MLXWhisperBackend.transcribe self audio kwargs
    = Return (Generator segments None).
Proof.
  destruct (mlx_transcribe (MLXWhisperBackend._mlx_whisper self) audio
              (MLXWhisperBackend.transcribe_options self kwargs))
    as [e|r] eqn:E.
  - rewrite (mlx_transcribe_fails _ _ _ E). eauto.
  - rewrite (mlx_transcribe_ok _ _ _ E). eauto.
Qed.

(** The engine of the OpenAI backend fails with [e]: the audio file
    cannot be opened, or the API call raises. *)
Lemma openai_transcribe_fails (self : OpenAIWhisperBackend.t)
    (audio : audio_file) (kwargs : transcribe_kwargs) (e : exn) :
  OpenAIWhisperBackend.open_rb audio = Raise e
  \/ (exists f,
        audio = Some f
        /\ transcriptions_create (OpenAIWhisperBackend.client self)
             (OpenAIWhisperBackend.transcribe_kwargs_of self f kwargs)
           = Raise e) ->
  OpenAIWhisperBackend.transcribe self audio kwargs
  = Return (Generator [] (Some e)).
Proof.
  unfold OpenAIWhisperBackend.transcribe.
  intros [H | [f [-> H]]].
  - now rewrite H.
  - simpl. now rewrite H.
Qed.

Lemma openai_transcribe_ok (self : OpenAIWhisperBackend.t)
    (f : Wave_write) (kwargs : transcribe_kwargs) (r : openai_response) :
  transcriptions_create (OpenAIWhisperBackend.client self)
    (OpenAIWhisperBackend.transcribe_kwargs_of self f kwargs)
  = Return r ->
  OpenAIWhisperBackend.transcribe self (Some f) kwargs
  = Return (Generator (OpenAIWhisperBackend.normalize r) None).
Proof.
  intros H. unfold OpenAIWhisperBackend.transcribe. simpl. now rewrite H.
Qed.

Lemma fw_transcribe_fails (self : FasterWhisperBackend.t)
    (audio : audio_file) (kwargs : transcribe_kwargs) (e : exn) :
  model_transcribe (FasterWhisperBackend.model self) audio
    (get_default (kw_beam_size kwargs) 5%Z) (kw_language kwargs)
    (kw_initial_prompt kwargs)
  = Raise e ->
  FasterWhisperBackend.transcribe self audio kwargs = Raise e.
Proof.
  intros H. unfold FasterWhisperBackend.transcribe. now rewrite H.
Qed.

Lemma fw_transcribe_ok (self : FasterWhisperBackend.t)
    (audio : audio_file) (kwargs : transcribe_kwargs)
    (segments : generator Segment) (info : TranscriptionInfo) :
  model_transcribe (FasterWhisperBackend.model self) audio
    (get_default (kw_beam_size kwargs) 5%Z) (kw_language kwargs)
    (kw_initial_prompt kwargs)
  = Return (segments, info) ->
  FasterWhisperBackend.transcribe self audio kwargs = Return segments.
Proof.
  intros H. unfold FasterWhisperBackend.transcribe. now rewrite H.
Qed.

(** ** C1: a failure of the engine *)

(** C1, as stated, fails.  When its engine raises, the OpenAI backend
    returns a segment sequence that raises the same exception to the
    one that consumes it, and the faster-whisper backend raises it from
    the call; the MLX backend does not raise, but its sequence is not
    empty: it holds one segment. *)
Lemma engine_failure_reaches_the_caller :
  OpenAIWhisperBackend.transcribe failing_openai_backend (Some example_wave)
                                  no_kwargs
  = Return (Generator [] (Some boom))
  /\ FasterWhisperBackend.transcribe failing_fw_backend (Some example_wave)
                                     no_kwargs
     = Raise boom
  /\ MLXWhisperBackend.transcribe failing_mlx_backend (Some example_wave)
                                  no_kwargs
     = Return (Generator [mkSegment (Some []) None None] None).
Proof. repeat split. Qed.

(** C1, as the code has it.  The MLX backend never raises to its
    caller: when its engine fails, it returns a sequence of one segment
    with empty text.  The OpenAI backend, when the audio file cannot be
    opened or the API call fails, returns a sequence that raises that
    exception before any segment; the faster-whisper backend raises
    what its engine raises.  In each of these cases the transcript of
    the session handler is the empty string. *)
Theorem engine_failure_by_backend (audio : audio_file)
    (kwargs : transcribe_kwargs) (e : exn) :
  (forall self : MLXWhisperBackend.t,
      exists segments,
        MLXWhisperBackend.transcribe self audio kwargs
        = Return (Generator segments None))
  /\ (forall self : MLXWhisperBackend.t,
        mlx_transcribe (MLXWhisperBackend._mlx_whisper self) audio
                       (MLXWhisperBackend.transcribe_options self kwargs)
        = Raise e ->
        MLXWhisperBackend.transcribe self audio kwargs
        = Return (Generator [MLXWhisperBackend.Segment1 (lit "")] None))
  /\ (forall self : OpenAIWhisperBackend.t,
        OpenAIWhisperBackend.open_rb audio = Raise e
        \/ (exists f,
              audio = Some f
              /\ transcriptions_create (OpenAIWhisperBackend.client self)
                   (OpenAIWhisperBackend.transcribe_kwargs_of self f kwargs)
                 = Raise e) ->
        OpenAIWhisperBackend.transcribe self audio kwargs
        = Return (Generator [] (Some e)))
  /\ (forall self : FasterWhisperBackend.t,
        model_transcribe (FasterWhisperBackend.model self) audio
          (get_default (kw_beam_size kwargs) 5%Z) (kw_language kwargs)
          (kw_initial_prompt kwargs)
        = Raise e ->
        FasterWhisperBackend.transcribe self audio kwargs = Raise e)
  /\ (forall session : WhisperEventHandler,
        transcribe (backend session) (_wav_path session)
                   (transcription_kwargs session)
        = Return (Generator [MLXWhisperBackend.Segment1 (lit "")] None)
        \/ transcribe (backend session) (_wav_path session)
                      (transcription_kwargs session)
           = Return (Generator [] (Some e))
        \/ transcribe (backend session) (_wav_path session)
                      (transcription_kwargs session)
           = Raise e ->
        transcription_text session = lit "").
Proof.
  split; [|split; [|split; [|split]]].
  - intros self. apply mlx_transcribe_never_raises.
  - intros self. apply mlx_transcribe_fails.
  - intros self. apply openai_transcribe_fails.
  - intros self. apply fw_transcribe_fails.
  - intros session [H | [H | H]];
      unfold transcription_text, try_transcribe; rewrite H; reflexivity.
Qed.

Lemma engine_failure_by_backend_witness :
  OpenAIWhisperBackend.transcribe failing_openai_backend (Some example_wave)
                                  no_kwargs
  = Return (Generator [] (Some boom))
  /\ transcription_text
       (session_on (MLXWhisperBackend.as_backend failing_mlx_backend)
                   (Some example_wave))
     = lit "".
Proof.
  pose proof (engine_failure_by_backend (Some example_wave) no_kwargs boom)
    as (_ & Hmlx & Hopenai & _ & Hsession).
  split.
  - apply Hopenai. right. exists example_wave. split; reflexivity.
  - apply Hsession. left. reflexivity.
Defined.

(** ** C4: the segments a backend returns *)

Lemma yield_segments_clean (l : list mlx_segment) :
  Forall clean_segment (MLXWhisperBackend.yield_segments l).
Proof.
  induction l as [|segment rest IH]; simpl; [constructor|].
  set (t := strip (get_default (ms_text segment) [])).
  destruct (truthy t) eqn:E; [|exact IH].
  constructor; [|exact IH].
  exists t.
  split; [reflexivity|]. split; [now apply truthy_true | apply strip_idem].
Qed.

Lemma mlx_full_text (segments : option (list mlx_segment)) (t : str) :
  segments = None \/ segments = Some [] ->
  MLXWhisperBackend.normalize (MlxDict segments (Some t))
  = if truthy (strip t)
    then [MLXWhisperBackend.Segment3 (strip t) 0%float 0%float]
    else [].
Proof. intros [-> | ->]; reflexivity. Qed.

Lemma mlx_normalize_clean (r : mlx_result) :
  Forall clean_segment (MLXWhisperBackend.normalize r).
Proof.
  destruct r as [[[|s l]|] [t|]|]; try (simpl; constructor; fail).
  - rewrite mlx_full_text by auto.
    destruct (truthy (strip t)) eqn:E; constructor; [|constructor].
    exists (strip t). split; [reflexivity|].
    split; [now apply truthy_true | apply strip_idem].
  - apply (yield_segments_clean (s :: l)).
  - apply (yield_segments_clean (s :: l)).
  - rewrite mlx_full_text by auto.
    destruct (truthy (strip t)) eqn:E; constructor; [|constructor].
    exists (strip t). split; [reflexivity|].
    split; [now apply truthy_true | apply strip_idem].
Qed.

Lemma openai_full_text (r : openai_response) :
  resp_segments r = None \/ resp_segments r = Some [] ->
  OpenAIWhisperBackend.normalize r
  = [OpenAIWhisperBackend.Segment1 (resp_text r)].
Proof.
  unfold OpenAIWhisperBackend.normalize. intros [-> | ->]; reflexivity.
Qed.

Lemma openai_texts (r : openai_response) (s : openai_segment)
    (l : list openai_segment) :
  resp_segments r = Some (s :: l) ->
  texts (OpenAIWhisperBackend.normalize r)
  = map (fun segment => Some (os_text segment)) (s :: l).
Proof.
  unfold OpenAIWhisperBackend.normalize, texts. intros ->.
  rewrite map_map. reflexivity.
Qed.

(** C4, as stated, fails.  The OpenAI backend returns a segment whose
    trimmed text is empty when the API does; the MLX backend returns no
    segment at all for a result that offers only a blank full text, and
    one segment (with empty text) when its engine fails. *)
Lemma blank_segments_are_returned :
  OpenAIWhisperBackend.transcribe example_openai_backend (Some example_wave)
                                  no_kwargs
  = Return (Generator [mkSegment (Some (lit "  ")) None None] None)
  /\ strip (lit "  ") = []
  /\ MLXWhisperBackend.transcribe blank_mlx_backend (Some example_wave)
                                  no_kwargs
     = Return (Generator [] None)
  /\ MLXWhisperBackend.transcribe failing_mlx_backend (Some example_wave)
                                  no_kwargs
     = Return (Generator [mkSegment (Some []) None None] None).
Proof. repeat split. Qed.

(** C4, as the code has it.
    MLX backend: every segment made from an engine result carries a
    non-empty, trimmed text; a result with only a full text gives one
    segment carrying the trimmed text when that is not empty, and none
    otherwise; when the engine fails, one segment with empty text is
    returned.
    OpenAI backend: the segments of the response are passed on as they
    are, one for one; a response without segments gives exactly one
    segment carrying the whole text; when the engine fails, no segment
    is yielded and the exception goes to the caller.
    faster-whisper backend: the segment sequence of the engine is
    returned as it is. *)
Theorem segments_by_backend (audio : audio_file) (kwargs : transcribe_kwargs) :
  (forall (self : MLXWhisperBackend.t) (r : mlx_result),
      mlx_transcribe (MLXWhisperBackend._mlx_whisper self) audio
                     (MLXWhisperBackend.transcribe_options self kwargs)
      = Return r ->
      MLXWhisperBackend.transcribe self audio kwargs
      = Return (Generator (MLXWhisperBackend.normalize r) None)
      /\ Forall clean_segment (MLXWhisperBackend.normalize r))
  /\ (forall (segments : option (list mlx_segment)) (t : str),
        segments = None \/ segments = Some [] ->
        MLXWhisperBackend.normalize (MlxDict segments (Some t))
        = if truthy (strip t)
          then [MLXWhisperBackend.Segment3 (strip t) 0%float 0%float]
          else [])
  /\ (forall (self : MLXWhisperBackend.t) (e : exn),
        mlx_transcribe (MLXWhisperBackend._mlx_whisper self) audio
                       (MLXWhisperBackend.transcribe_options self kwargs)
        = Raise e ->
        MLXWhisperBackend.transcribe self audio kwargs
        = Return (Generator [MLXWhisperBackend.Segment1 (lit "")] None))
  /\ (forall (self : OpenAIWhisperBackend.t) (f : Wave_write)
             (r : openai_response),
        audio = Some f ->
        transcriptions_create (OpenAIWhisperBackend.client self)
          (OpenAIWhisperBackend.transcribe_kwargs_of self f kwargs)
        = Return r ->
        OpenAIWhisperBackend.transcribe self audio kwargs
        = Return (Generator (OpenAIWhisperBackend.normalize r) None)
        /\ (forall s l,
              resp_segments r = Some (s :: l) ->
              texts (OpenAIWhisperBackend.normalize r)
              = map (fun segment => Some (os_text segment)) (s :: l))
        /\ (resp_segments r = None \/ resp_segments r = Some [] ->
            OpenAIWhisperBackend.normalize r
            = [OpenAIWhisperBackend.Segment1 (resp_text r)]))
  /\ (forall (self : OpenAIWhisperBackend.t) (e : exn),
        OpenAIWhisperBackend.open_rb audio = Raise e
        \/ (exists f,
              audio = Some f
              /\ transcriptions_create (OpenAIWhisperBackend.client self)
                   (OpenAIWhisperBackend.transcribe_kwargs_of self f kwargs)
                 = Raise e) ->
        OpenAIWhisperBackend.transcribe self audio kwargs
        = Return (Generator [] (Some e)))
  /\ (forall (self : FasterWhisperBackend.t) (segments : generator Segment)
             (info : TranscriptionInfo),
        model_transcribe (FasterWhisperBackend.model self) audio
          (get_default (kw_beam_size kwargs) 5%Z) (kw_language kwargs)
          (kw_initial_prompt kwargs)
        = Return (segments, info) ->
        FasterWhisperBackend.transcribe self audio kwargs = Return segments).
Proof.
  split; [|split; [|split; [|split; [|split]]]].
  - intros self r H. split; [now apply mlx_transcribe_ok|].
    apply mlx_normalize_clean.
  - apply mlx_full_text.
  - intros self e. apply mlx_transcribe_fails.
  - intros self f r -> H. split; [now apply openai_transcribe_ok|].
    split; [intros s l; apply openai_texts | apply openai_full_text].
  - intros self e. apply openai_transcribe_fails.
  - intros self segments info. apply fw_transcribe_ok.
Qed.

Lemma segments_by_backend_witness :
  MLXWhisperBackend.transcribe
    (MLXWhisperBackend.mk example_mlx (lit "mlx-community/whisper-tiny-mlx"))
    (Some example_wave) no_kwargs
  = Return (Generator
              (MLXWhisperBackend.normalize
                 (MlxDict None (Some (lit " good morning ")))) None)
  /\ Forall clean_segment
       (MLXWhisperBackend.normalize
          (MlxDict None (Some (lit " good morning ")))).
Proof.
  exact (proj1 (segments_by_backend (Some example_wave) no_kwargs)
           (MLXWhisperBackend.mk example_mlx
              (lit "mlx-community/whisper-tiny-mlx"))
           (MlxDict None (Some (lit " good morning "))) eq_refl).
Defined.

(* ================================================================== *)
(** * Further properties *)
(* ================================================================== *)

(** ** The shape of a transcript *)

Lemma strip_fixed (s : str) : trimmed s -> strip s = s.
Proof.
  intros [Hh Hl]. unfold strip, rstrip.
  rewrite (lstrip_fixed s Hh), (lstrip_fixed (rev s) Hl).
  apply rev_involutive.
Qed.

Lemma strip_trimmed (s : str) : trimmed (strip s).
Proof.
  split.
  - apply rstrip_clean_head, lstrip_clean_head.
  - unfold strip, rstrip. rewrite rev_involutive. apply lstrip_clean_head.
Qed.

Lemma clean_head_app (a b : str) :
  a <> [] -> clean_head a -> clean_head (a ++ b).
Proof. destruct a; simpl; [congruence | auto]. Qed.

Lemma join_cons2 (sep x y : str) (l : list str) :
  join sep (x :: y :: l) = x ++ sep ++ join sep (y :: l).
Proof. reflexivity. Qed.

Lemma join_nonempty (sep x : str) (l : list str) :
  x <> [] -> join sep (x :: l) <> [].
Proof.
  intros Hx. destruct l as [|y l]; [exact Hx|].
  rewrite join_cons2. destruct x; [congruence | discriminate].
Qed.

(** Joining non-empty trimmed pieces gives a trimmed string. *)
Lemma join_trimmed (sep : str) (l : list str) :
  Forall (fun p => p <> [] /\ trimmed p) l -> trimmed (join sep l).
Proof.
  induction l as [|x l IH]; intros H.
  - split; exact I.
  - inversion H as [|? ? [Hx [Hh Hl]] Hrest]; subst.
    destruct l as [|y l]; [split; assumption|].
    rewrite join_cons2. split.
    + apply clean_head_app; assumption.
    + rewrite !rev_app_distr, <- app_assoc.
      destruct (IH Hrest) as [_ IHl].
      apply clean_head_app; [|exact IHl].
      inversion Hrest as [|? ? [Hy _] _]; subst.
      intros E. apply (join_nonempty sep l Hy).
      rewrite <- (rev_involutive (join sep (y :: l))), E. reflexivity.
Qed.

Lemma pieces_trimmed (raw : list str) :
  Forall (fun p => p <> [] /\ trimmed p) (filter truthy (map strip raw)).
Proof.
  apply Forall_forall. intros p Hp. apply filter_In in Hp as [Hin Ht].
  apply in_map_iff in Hin as [t [<- _]].
  split; [now apply truthy_true | apply strip_trimmed].
Qed.

Lemma TranscriptResult_joined (segments : list Segment) :
  TranscriptResult segments = joined (map segment_text segments).
Proof. unfold TranscriptResult, joined. now rewrite map_map. Qed.

Lemma joined_trimmed (raw : list str) : strip (joined raw) = joined raw.
Proof. apply strip_fixed, join_trimmed, pieces_trimmed. Qed.

Lemma text_of_result_cases (r : result (generator Segment)) :
  text_of_result r = lit ""
  \/ exists segments, text_of_result r = TranscriptResult segments.
Proof.
  destruct r as [e|[ys [e|]]]; [now left | now left |].
  right. exists ys. unfold text_of_result. now rewrite for_segments_ok.
Qed.

(** The reply to AudioStop, as a function of what the backend gives. *)
Lemma stop_reply (self : WhisperEventHandler) (w : Wave_write) :
  _wav_file self = Some w -> header_ready w = true ->
  handle_event AudioStop self
  = mkStep (after_utterance self w)
      [Transcript
         (text_of_result
            (transcribe (backend self) (Some w) (transcription_kwargs self)))]
      (Return false).
Proof.
  intros Hw Hr. rewrite (audio_stop_recording self Hw Hr).
  unfold transcription_text, try_transcribe, text_of_result. simpl.
  change (transcription_kwargs (at_transcription self w))
    with (transcription_kwargs self).
  destruct (transcribe (backend self) (Some w) (transcription_kwargs self))
    as [e|g]; [reflexivity|].
  destruct (for_segments g); reflexivity.
Qed.

(** X1.  The transcript written at the end of an utterance never starts
    or ends with white space: trimming it changes nothing. *)
Theorem transcript_is_trimmed (self : WhisperEventHandler) (w : Wave_write) :
  _wav_file self = Some w ->
  header_ready w = true ->
  exists reply,
    written (handle_event AudioStop self) = [Transcript reply]
    /\ strip reply = reply.
Proof.
  intros Hw Hr. rewrite (stop_reply self Hw Hr). simpl.
  eexists. split; [reflexivity|].
  destruct (text_of_result_cases
              (transcribe (backend self) (Some w) (transcription_kwargs self)))
    as [-> | [segments ->]]; [reflexivity|].
  rewrite TranscriptResult_joined. apply joined_trimmed.
Qed.

Lemma transcript_is_trimmed_witness :
  exists reply,
    written (handle_event AudioStop
               (example_recording
                  (mock_backend [text_segment "  hello "; text_segment " "])))
    = [Transcript reply]
    /\ strip reply = reply.
Proof.
  exact (transcript_is_trimmed
           (example_recording
              (mock_backend [text_segment "  hello "; text_segment " "]))
           (w := example_wave) eq_refl eq_refl).
Defined.

Lemma join_nil_iff (sep : str) (l : list str) :
  Forall (fun p => p <> []) l -> (join sep l = [] <-> l = []).
Proof.
  intros H. split; [|intros ->; reflexivity].
  destruct l as [|x l]; [reflexivity|].
  inversion H; subst. intros E. now apply join_nonempty in E.
Qed.

Lemma pieces_nonempty (raw : list str) :
  Forall (fun p => p <> []) (filter truthy (map strip raw)).
Proof.
  apply Forall_forall. intros p Hp. apply filter_In in Hp as [_ Ht].
  now apply truthy_true.
Qed.

Lemma filter_nil_iff {A} (f : A -> bool) (l : list A) :
  filter f l = [] <-> Forall (fun x => f x = false) l.
Proof.
  induction l as [|x l IH]; simpl.
  - split; [constructor | reflexivity].
  - destruct (f x) eqn:E; split.
    + discriminate.
    + intros H. inversion H; subst. congruence.
    + intros H. constructor; [exact E | now apply IH].
    + intros H. inversion H; subst. now apply IH.
Qed.

Lemma joined_nil_iff (raw : list str) :
  joined raw = [] <-> Forall (fun t => strip t = []) raw.
Proof.
  unfold joined. rewrite (join_nil_iff (lit " ") (pieces_nonempty raw)).
  rewrite filter_nil_iff, Forall_map.
  split; intros H; eapply Forall_impl; try exact H;
    intros t Ht; now apply truthy_false.
Qed.

Lemma text_of_segments (segments : list Segment) :
  text_of_result (Return (Generator segments None))
  = joined (map segment_text segments).
Proof.
  unfold text_of_result. rewrite for_segments_ok.
  apply TranscriptResult_joined.
Qed.

(** X2.  When the backend returns a segment sequence, the transcript is
    the empty string exactly when every segment is blank (its text is
    missing, empty or white space only). *)
Theorem transcript_empty_iff_all_blank
    (self : WhisperEventHandler) (w : Wave_write) (segments : list Segment) :
  _wav_file self = Some w ->
  header_ready w = true ->
  transcribe (backend self) (Some w) (transcription_kwargs self)
  = Return (Generator segments None) ->
  (written (handle_event AudioStop self) = [Transcript (lit "")]
   <-> Forall (fun s => strip (segment_text s) = []) segments).
Proof.
  intros Hw Hr Hb. rewrite (stop_reply self Hw Hr), Hb, text_of_segments.
  simpl. rewrite <- (Forall_map segment_text (fun t => strip t = [])).
  rewrite <- joined_nil_iff. split.
  - intros H. injection H as H. exact H.
  - intros ->. reflexivity.
Qed.

Lemma transcript_empty_iff_all_blank_witness :
  written (handle_event AudioStop
             (example_recording
                (mock_backend [text_segment "  "; mkSegment None None None])))
  = [Transcript (lit "")].
Proof.
  apply (proj2 (transcript_empty_iff_all_blank
                  (example_recording
                     (mock_backend
                        [text_segment "  "; mkSegment None None None]))
                  (w := example_wave)
                  (segments := [text_segment "  "; mkSegment None None None])
                  eq_refl eq_refl eq_refl)).
  repeat constructor.
Defined.

Lemma join_app (sep : str) (a b : list str) :
  join sep (a ++ b)
  = match a, b with
    | [], _ => join sep b
    | _, [] => join sep a
    | _, _ => join sep a ++ sep ++ join sep b
    end.
Proof.
  induction a as [|x a IH]; [reflexivity|].
  destruct b as [|y b]; [now rewrite app_nil_r|].
  destruct a as [|z a].
  - reflexivity.
  - change ((x :: z :: a) ++ y :: b) with (x :: z :: (a ++ y :: b)).
    rewrite !join_cons2. change (z :: a ++ y :: b) with ((z :: a) ++ y :: b).
    rewrite IH. now rewrite <- !app_assoc.
Qed.

Lemma joined_app (a b : list str) :
  joined (a ++ b)
  = if truthy (joined a)
    then if truthy (joined b) then joined a ++ lit " " ++ joined b
         else joined a
    else joined b.
Proof.
  unfold joined. rewrite map_app, filter_app, join_app.
  pose proof (join_nil_iff (lit " ") (pieces_nonempty a)) as Ha.
  pose proof (join_nil_iff (lit " ") (pieces_nonempty b)) as Hb.
  destruct (filter truthy (map strip a)) as [|x la] eqn:Ea.
  - reflexivity.
  - destruct (truthy (join (lit " ") (x :: la))) eqn:Ta.
    2:{ apply truthy_false, Ha in Ta. discriminate. }
    destruct (filter truthy (map strip b)) as [|y lb] eqn:Eb.
    + reflexivity.
    + destruct (truthy (join (lit " ") (y :: lb))) eqn:Tb; [reflexivity|].
      apply truthy_false, Hb in Tb. discriminate.
Qed.

(** X3.  The transcript of two segment sequences, one after the other,
    is made of the two transcripts: joined by one space when neither is
    empty, otherwise the one that is not empty. *)
Theorem transcript_of_concatenation (first second : list Segment) :
  text_of_result (Return (Generator (first ++ second) None))
  = if truthy (text_of_result (Return (Generator first None)))
    then if truthy (text_of_result (Return (Generator second None)))
         then text_of_result (Return (Generator first None))
              ++ lit " "
              ++ text_of_result (Return (Generator second None))
         else text_of_result (Return (Generator first None))
    else text_of_result (Return (Generator second None)).
Proof. rewrite !text_of_segments, map_app. apply joined_app. Qed.

(** ** The audio buffer over a whole utterance *)

Lemma handle_all_app (a b : list Event) (self : WhisperEventHandler) :
  handle_all (a ++ b) self = handle_all b (handle_all a self).
Proof. unfold handle_all. apply fold_left_app. Qed.

Lemma handle_all_cons (event : Event) (rest : list Event)
    (self : WhisperEventHandler) :
  handle_all (event :: rest) self
  = handle_all rest (after (handle_event event self)).
Proof. reflexivity. Qed.

Lemma outputs_app (a b : list Event) (self : WhisperEventHandler) :
  outputs (a ++ b) self = outputs a self ++ outputs b (handle_all a self).
Proof.
  revert self. induction a as [|ev a IH]; intros self; cbn [app outputs].
  - reflexivity.
  - rewrite IH, handle_all_cons. now rewrite app_assoc.
Qed.

(** Chunks that come while a buffer is open are appended to it. *)
Lemma chunks_append (events : list Event) (self : WhisperEventHandler)
    (w : Wave_write) :
  Forall (fun event => is_audio_chunk event = true) events ->
  _wav_file self = Some w ->
  header_ready w = true ->
  handle_all events self
  = with_wav_file self
      (mkWave (_framerate w) (_sampwidth w) (_nchannels w)
              (_frames w ++ List.concat (map chunk_audio events)))
  /\ outputs events self = [].
Proof.
  intros Hall. revert self w.
  induction Hall as [|ev rest Hev _ IH]; intros self w Hw Hr.
  - simpl. rewrite app_nil_r. split; [|reflexivity].
    destruct self, w; simpl in *; subst; reflexivity.
  - destruct ev as [rate width channels audio| | | | | |]; try discriminate.
    rewrite handle_all_cons. cbn [outputs].
    rewrite (audio_chunk_recording self rate width channels audio Hw Hr).
    cbn [after written].
    destruct (IH (mkHandler (cli_args self) (wyoming_info_event self)
                    (backend self) (initial_prompt self) (_language self)
                    (Some (mkWave (_framerate w) (_sampwidth w) (_nchannels w)
                                  (_frames w ++ audio)))
                    (_wav_path self))
                 (mkWave (_framerate w) (_sampwidth w) (_nchannels w)
                         (_frames w ++ audio))
                 eq_refl Hr) as [IHs IHo].
    split; [|exact IHo].
    rewrite IHs. unfold with_wav_file. simpl. now rewrite <- app_assoc.
Qed.

(** X4.  While a buffer is open, audio chunks are appended to it in the
    order they come and nothing is written to the client; the format of
    the buffer stays the one it was opened with, whatever format the
    later chunks declare. *)
Theorem chunks_accumulate (events : list Event) (self : WhisperEventHandler)
    (w : Wave_write) :
  Forall (fun event => is_audio_chunk event = true) events ->
  _wav_file self = Some w ->
  header_ready w = true ->
  handle_all events self
  = with_wav_file self
      (mkWave (_framerate w) (_sampwidth w) (_nchannels w)
              (_frames w ++ List.concat (map chunk_audio events)))
  /\ outputs events self = [].
Proof.
  intros Hall Hw Hr.
  destruct (@chunks_append events self w Hall Hw Hr) as [Hstate Hout].
  split; assumption.
Qed.

Lemma chunks_accumulate_witness :
  handle_all [AudioChunk 8000 1 1 [Byte.x61]; AudioChunk 44100 4 2 [Byte.x62]]
             (example_recording (mock_backend []))
  = with_wav_file (example_recording (mock_backend []))
      (mkWave (Some 16000%Z) (Some 2%Z) (Some 1%Z) [Byte.x61; Byte.x62]).
Proof.
  destruct (@chunks_accumulate
              [AudioChunk 8000 1 1 [Byte.x61];
               AudioChunk 44100 4 2 [Byte.x62]]
              (example_recording (mock_backend []))
              example_wave) as [H _].
  - repeat constructor.
  - reflexivity.
  - reflexivity.
  - exact H.
Defined.



(** ** What a session writes *)

Lemma writes_nothing_ret {A} (a : A) : writes_nothing (ret a).
Proof. intros self. reflexivity. Qed.

Lemma writes_nothing_raise {A} (e : exn) : writes_nothing (@raise A e).
Proof. intros self. reflexivity. Qed.

Lemma writes_nothing_bind {A B} (m : M A) (f : A -> M B) :
  writes_nothing m -> (forall a, writes_nothing (f a)) ->
  writes_nothing (bind m f).
Proof.
  intros Hm Hf self. unfold bind.
  pose proof (Hm self) as H1.
  destruct (m self) as [self' out [e|a]]; simpl in *; [exact H1|].
  pose proof (Hf a self') as H2.
  destruct (f a self') as [self'' out' r]; simpl in *. now subst.
Qed.

Lemma writes_nothing_on_wav_file method : writes_nothing (on_wav_file method).
Proof.
  unfold on_wav_file. apply writes_nothing_bind; [intros self; reflexivity|].
  intros self. destruct (_wav_file self); [|apply writes_nothing_raise].
  destruct (method w); [apply writes_nothing_raise | intros s; reflexivity].
Qed.

(** An audio chunk is never answered, in whatever state it arrives and
    whether it is accepted or not. *)
Lemma audio_chunk_writes_nothing (rate width channels : Z)
    (audio : list Byte.byte) (self : WhisperEventHandler) :
  written (handle_event (AudioChunk rate width channels audio) self) = [].
Proof.
  revert self. change (writes_nothing
    (handle_event (AudioChunk rate width channels audio))).
  cbn [handle_event]. unfold handle_audio_chunk.
  apply writes_nothing_bind; [intros self; reflexivity|]. intros self.
  apply writes_nothing_bind.
  - destruct (_wav_file self); [apply writes_nothing_ret|].
    repeat (apply writes_nothing_bind;
            [first [apply writes_nothing_on_wav_file
                   | intros s; reflexivity]
            | intros _]).
    apply writes_nothing_on_wav_file.
  - intros _. apply writes_nothing_bind; [apply writes_nothing_on_wav_file|].
    intros _. apply writes_nothing_ret.
Qed.

(** AudioStop, in whatever state: either it raises and writes nothing,
    or it writes one transcript and asks to end the session. *)
Lemma audio_stop_outcomes (self : WhisperEventHandler) :
  (written (handle_event AudioStop self) = []
   /\ exists e, returned (handle_event AudioStop self) = Raise e)
  \/ (exists reply,
        written (handle_event AudioStop self) = [Transcript reply]
        /\ returned (handle_event AudioStop self) = Return false).
Proof.
  destruct self as [cli info b ip lang [w|] path].
  - unfold handle_event, handle_audio_stop, bind, get_self, on_wav_file,
      bind, get_self. simpl.
    destruct (wave.close w) as [e|w']; simpl.
    + left. eauto.
    + right. eauto.
  - left. simpl. eauto.
Qed.

Lemma transcribe_step (language : option str) (self : WhisperEventHandler) :
  handle_event (Transcribe language) self
  = mkStep (with_language self (override (_language self) language)) []
           (Return true).
Proof.
  destruct self as [cli info b ip lang wf path].
  destruct language as [[|c l]|]; reflexivity.
Qed.

Lemma inert_step (event : Event) (self : WhisperEventHandler) :
  inert event = true ->
  handle_event event self
  = mkStep self
      (if is_describe event then [wyoming_info_event self] else [])
      (Return true).
Proof.
  destruct event as [| |[[|c l]|]| | | |]; try discriminate;
    intros _; reflexivity.
Qed.

(** X6.  As long as no audio chunk has come, no transcript is written:
    from a session with no buffer, events other than audio chunks get
    no answer except the descriptor, once for each Describe. *)
Theorem no_audio_no_transcript (events : list Event)
    (self : WhisperEventHandler) :
  _wav_file self = None ->
  Forall (fun event => is_audio_chunk event = false) events ->
  outputs events self
  = repeat (wyoming_info_event self) (List.length (filter is_describe events)).
Proof.
  intros Hw Hall. revert self Hw.
  induction Hall as [|ev rest Hev _ IH]; intros self Hw; [reflexivity|].
  cbn [outputs].
  destruct ev as [| |language| | | |]; try discriminate.
  - rewrite (audio_stop_idle self Hw). cbn [after written app filter
      is_describe]. now apply IH.
  - rewrite transcribe_step. cbn [after written app filter is_describe].
    rewrite IH by exact Hw. reflexivity.
  - rewrite describe_step. cbn [after written filter is_describe List.length repeat].
    rewrite IH by exact Hw. reflexivity.
  - cbn. now apply IH.
  - cbn. now apply IH.
  - cbn. now apply IH.
Qed.

Lemma no_audio_no_transcript_witness :
  outputs [Describe; AudioStop; Transcribe (Some (lit "de")); AudioStop;
           Describe]
          (new_handler example_info example_args (mock_backend []) None)
  = [Info_event example_info; Info_event example_info].
Proof.
  apply (@no_audio_no_transcript
           [Describe; AudioStop; Transcribe (Some (lit "de")); AudioStop;
            Describe]
           (new_handler example_info example_args (mock_backend []) None)
           eq_refl).
  repeat constructor.
Defined.

(** X7.  What one session writes, from its first event to its end, is
    the descriptor some number of times (at most once for each Describe
    received) and then at most one transcript: a transcript is the last
    thing a session writes, and it writes no second one. *)
Theorem session_output_shape (events : list Event)
    (self : WhisperEventHandler) :
  exists k tail,
    snd (run events self) = repeat (wyoming_info_event self) k ++ tail
    /\ (tail = [] \/ exists reply, tail = [Transcript reply])
    /\ (k <= List.length (filter is_describe events))%nat.
Proof.
  revert self. induction events as [|ev rest IH]; intros self.
  - exists 0%nat, []. simpl. auto.
  - cbn [run].
    destruct ev as [rate width channels audio| |language| |t|i|ty].
    + pose proof (audio_chunk_writes_nothing rate width channels audio self)
        as Hout.
      pose proof (keeps_info_handle_event
                    (AudioChunk rate width channels audio) self) as Hinfo.
      destruct (handle_event (AudioChunk rate width channels audio) self)
        as [s1 out [e|[|]]]; simpl in Hout, Hinfo; subst out.
      * exists 0%nat, []. simpl. split; [reflexivity|]. split; [auto|lia].
      * cbn [returned after written].
        destruct (IH s1) as (k & tail & Hrun & Htail & Hk).
        destruct (run rest s1) as [final out]. simpl in Hrun. subst out.
        exists k, tail. rewrite <- Hinfo. simpl. auto.
      * exists 0%nat, []. simpl. split; [reflexivity|]. split; [auto|lia].
    + destruct (audio_stop_outcomes self) as [[Hout [e He]] | [t [Hout He]]];
        rewrite He.
      * exists 0%nat, []. cbn [snd repeat app]. rewrite Hout.
        split; [reflexivity|]. split; [auto|cbn; lia].
      * exists 0%nat, [Transcript t]. cbn [snd repeat app]. rewrite Hout.
        split; [reflexivity|]. split; [eauto|cbn; lia].
    + rewrite transcribe_step. cbn [returned after written].
      destruct (IH (with_language self (override (_language self) language)))
        as (k & tail & Hrun & Htail & Hk).
      destruct (run rest _) as [final out]. simpl in Hrun. subst out.
      exists k, tail. simpl. auto.
    + rewrite describe_step. cbn [returned after written].
      destruct (IH self) as (k & tail & Hrun & Htail & Hk).
      destruct (run rest self) as [final out]. simpl in Hrun. subst out.
      exists (S k), tail. simpl. split; [reflexivity|]. split; [auto|lia].
    + cbn. destruct (IH self) as (k & tail & Hrun & Htail & Hk).
      destruct (run rest self) as [final out]. simpl in Hrun. subst out.
      exists k, tail. simpl. auto.
    + cbn. destruct (IH self) as (k & tail & Hrun & Htail & Hk).
      destruct (run rest self) as [final out]. simpl in Hrun. subst out.
      exists k, tail. simpl. auto.
    + cbn. destruct (IH self) as (k & tail & Hrun & Htail & Hk).
      destruct (run rest self) as [final out]. simpl in Hrun. subst out.
      exists k, tail. simpl. auto.
Qed.

(** X8.  Discovery requests, events of unknown type and language-set
    events without a language can be put anywhere among the events of a
    session without any effect on its state; the only trace they leave
    is the descriptor written for a Describe. *)
Theorem inert_events_are_transparent (event : Event)
    (before later : list Event) (self : WhisperEventHandler) :
  inert event = true ->
  handle_all (before ++ event :: later) self
  = handle_all (before ++ later) self
  /\ outputs (before ++ event :: later) self
     = outputs before self
       ++ (if is_describe event then [wyoming_info_event self] else [])
       ++ outputs later (handle_all before self).
Proof.
  intros Hev. split.
  - rewrite !handle_all_app, handle_all_cons, (inert_step _ _ Hev).
    reflexivity.
  - rewrite outputs_app. cbn [outputs].
    rewrite (inert_step _ _ Hev). cbn [written after].
    now rewrite keeps_info_handle_all.
Qed.

Lemma inert_events_are_transparent_witness :
  handle_all ([AudioChunk 16000 2 1 []] ++ OtherEvent (lit "ping")
                :: [AudioStop])
             (new_handler example_info example_args (mock_backend []) None)
  = handle_all ([AudioChunk 16000 2 1 []] ++ [AudioStop])
               (new_handler example_info example_args (mock_backend []) None).
Proof.
  exact (proj1 (@inert_events_are_transparent
                  (OtherEvent (lit "ping")) [AudioChunk 16000 2 1 []]
                  [AudioStop]
                  (new_handler example_info example_args (mock_backend [])
                               None)
                  eq_refl)).
Defined.

(** ** The language of an utterance *)

Lemma language_events (languages : list (option str))
    (self : WhisperEventHandler) :
  handle_all (map Transcribe languages) self
  = with_language self (fold_left override languages (_language self))
  /\ outputs (map Transcribe languages) self = [].
Proof.
  revert self. induction languages as [|l rest IH]; intros self.
  - split; [|reflexivity]. destruct self; reflexivity.
  - cbn [map outputs fold_left]. rewrite handle_all_cons, transcribe_step.
    cbn [after written app].
    destruct (IH (with_language self (override (_language self) l)))
      as [Hs Ho].
    split; [|exact Ho]. rewrite Hs. reflexivity.
Qed.

(** X9.  The language the backend is asked for is the one of the last
    language-set event that carried a non-empty language, and the
    session's current language when there was none; events without a
    language do not reset it.  After the utterance the language is the
    start-up default again. *)
Theorem last_language_set_wins (languages : list (option str))
    (self : WhisperEventHandler) (w : Wave_write) :
  _wav_file self = Some w ->
  header_ready w = true ->
  outputs (map Transcribe languages ++ [AudioStop]) self
  = [Transcript
       (text_of_result
          (transcribe (backend self) (Some w)
             (mkKwargs (fold_left override languages (_language self))
                       (initial_prompt self)
                       (args_beam_size (cli_args self)))))]
  /\ _language (handle_all (map Transcribe languages ++ [AudioStop]) self)
     = args_language (cli_args self).
Proof.
  intros Hw Hr. destruct (language_events languages self) as [Hs Ho].
  rewrite outputs_app, handle_all_app, Ho, Hs. cbn [app outputs].
  rewrite handle_all_cons.
  rewrite (@stop_reply (with_language self _) w Hw Hr).
  split; reflexivity.
Qed.

Lemma last_language_set_wins_witness :
  _language
    (handle_all (map Transcribe [Some (lit "fr"); Some (lit "de"); None]
                   ++ [AudioStop])
                (example_recording (mock_backend [])))
  = Some (lit "en").
Proof.
  exact (proj2 (@last_language_set_wins
                  [Some (lit "fr"); Some (lit "de"); None]
                  (example_recording (mock_backend [])) example_wave
                  eq_refl eq_refl)).
Defined.

(** ** A session on each backend *)

Lemma pieces_idem (raw : list str) :
  filter truthy (map strip (filter truthy (map strip raw)))
  = filter truthy (map strip raw).
Proof.
  induction raw as [|t raw IH]; [reflexivity|].
  cbn [map filter]. destruct (truthy (strip t)) eqn:E; [|exact IH].
  cbn [map filter]. rewrite strip_idem, E, IH. reflexivity.
Qed.

Lemma yield_segments_texts (l : list mlx_segment) :
  map segment_text (MLXWhisperBackend.yield_segments l)
  = filter truthy
      (map strip (map (fun s => get_default (ms_text s) (lit "")) l)).
Proof.
  induction l as [|s l IH]; [reflexivity|].
  cbn [MLXWhisperBackend.yield_segments map filter].
  destruct (truthy (strip (get_default (ms_text s) (lit "")))); [|exact IH].
  cbn [map]. rewrite IH. reflexivity.
Qed.

Lemma mlx_normalize_joined (r : mlx_result) :
  joined (map segment_text (MLXWhisperBackend.normalize r))
  = joined (mlx_raw_texts r).
Proof.
  assert (Hseg : forall l,
             joined (map segment_text (MLXWhisperBackend.yield_segments l))
             = joined (map (fun s => get_default (ms_text s) (lit "")) l)).
  { intros l. rewrite yield_segments_texts. unfold joined.
    now rewrite pieces_idem. }
  assert (Htext : forall segs t,
             segs = None \/ segs = Some [] ->
             joined (map segment_text
                       (MLXWhisperBackend.normalize (MlxDict segs (Some t))))
             = joined [t]).
  { intros segs t H. rewrite (mlx_full_text t H).
    unfold joined. cbn [map filter].
    destruct (truthy (strip t)) eqn:E; cbn [map filter segment_text text
      MLXWhisperBackend.Segment3 get_default]; [|reflexivity].
    now rewrite strip_idem, E. }
  destruct r as [[[|s l]|] [t|]|].
  - apply Htext. auto.
  - reflexivity.
  - apply (Hseg (s :: l)).
  - apply (Hseg (s :: l)).
  - apply Htext. auto.
  - reflexivity.
  - reflexivity.
Qed.

(** X10.  A session on the MLX backend.  The engine is asked with the
    model path of the backend, the language and the prompt of the
    session when they are not empty, and nothing else.  The transcript
    is made of the texts the engine offers (those of its segments, or
    else its full text): trimmed, the blank ones dropped, joined by one
    space.  It is empty when the engine raises. *)
Theorem mlx_session_transcript (m : MLXWhisperBackend.t)
    (self : WhisperEventHandler) (w : Wave_write) :
  backend self = MLXWhisperBackend.as_backend m ->
  _wav_file self = Some w ->
  header_ready w = true ->
  written (handle_event AudioStop self)
  = [Transcript
       match mlx_transcribe (MLXWhisperBackend._mlx_whisper m) (Some w)
               (mkMlxOptions (MLXWhisperBackend.model_path m) false
                             (if_truthy (_language self))
                             (if_truthy (initial_prompt self))) with
       | inl _ => lit ""
       | inr r => joined (mlx_raw_texts r)
       end].
Proof.
  intros Hb Hw Hr. rewrite (stop_reply self Hw Hr), Hb.
  cbn [written transcribe MLXWhisperBackend.as_backend].
  unfold MLXWhisperBackend.transcribe, MLXWhisperBackend.transcribe_options,
    transcription_kwargs.
  cbn [kw_language kw_initial_prompt].
  destruct (mlx_transcribe _ _ _) as [e|r]; [reflexivity|].
  cbn [gen_bind gen_except raised]. rewrite text_of_segments.
  now rewrite mlx_normalize_joined.
Qed.

Lemma mlx_session_transcript_witness :
  written (handle_event AudioStop
             (example_recording
                (MLXWhisperBackend.as_backend example_mlx_segments_backend)))
  = [Transcript (lit "good morning")].
Proof.
  exact (@mlx_session_transcript example_mlx_segments_backend
           (example_recording
              (MLXWhisperBackend.as_backend example_mlx_segments_backend))
           example_wave eq_refl eq_refl eq_refl).
Defined.

Lemma openai_normalize_joined (r : openai_response) :
  joined (map segment_text (OpenAIWhisperBackend.normalize r))
  = joined (openai_raw_texts r).
Proof.
  unfold OpenAIWhisperBackend.normalize, openai_raw_texts.
  destruct (resp_segments r) as [[|s l]|]; try reflexivity.
  now rewrite map_map.
Qed.

(** X11.  A session on the OpenAI backend.  The API is asked for the
    model of the backend, the buffered audio, the "verbose_json" format
    and the language and prompt of the session when they are not empty.
    The transcript is made of the texts of the response (those of its
    segments, or else its full text): trimmed, the blank ones dropped,
    joined by one space.  It is empty when the call raises. *)
Theorem openai_session_transcript (env : Env) (m : OpenAIWhisperBackend.t)
    (self : WhisperEventHandler) (w : Wave_write) :
  backend self = OpenAIWhisperBackend.as_backend env m ->
  _wav_file self = Some w ->
  header_ready w = true ->
  written (handle_event AudioStop self)
  = [Transcript
       match transcriptions_create (OpenAIWhisperBackend.client m)
               (mkOpenaiRequest (OpenAIWhisperBackend.model_name m) w
                                (lit "verbose_json")
                                (if_truthy (_language self))
                                (if_truthy (initial_prompt self))) with
       | inl _ => lit ""
       | inr r => joined (openai_raw_texts r)
       end].
Proof.
  intros Hb Hw Hr. rewrite (stop_reply self Hw Hr), Hb.
  cbn [written transcribe OpenAIWhisperBackend.as_backend].
  unfold OpenAIWhisperBackend.transcribe,
    OpenAIWhisperBackend.transcribe_kwargs_of, transcription_kwargs.
  cbn [kw_language kw_initial_prompt OpenAIWhisperBackend.open_rb gen_bind].
  destruct (transcriptions_create _ _) as [e|r]; [reflexivity|].
  cbn [gen_bind gen_except raised]. rewrite text_of_segments.
  now rewrite openai_normalize_joined.
Qed.

Lemma openai_session_transcript_witness :
  written (handle_event AudioStop
             (example_recording
                (OpenAIWhisperBackend.as_backend example_openai_env
                   example_openai_backend)))
  = [Transcript (lit "")].
Proof.
  exact (@openai_session_transcript example_openai_env example_openai_backend
           (example_recording
              (OpenAIWhisperBackend.as_backend example_openai_env
                 example_openai_backend))
           example_wave eq_refl eq_refl eq_refl).
Defined.

(** X12.  A session on the faster-whisper backend.  The engine is asked
    with the buffered audio, the beam size of the command line (5 when
    there is none) and the language and prompt of the session as they
    are.  The transcript is made of the segments the engine yields, and
    is empty when the engine raises, at the call or while its segments
    are consumed. *)
Theorem faster_whisper_session_transcript (m : FasterWhisperBackend.t)
    (self : WhisperEventHandler) (w : Wave_write) :
  backend self = FasterWhisperBackend.as_backend m ->
  _wav_file self = Some w ->
  header_ready w = true ->
  written (handle_event AudioStop self)
  = [Transcript
       match model_transcribe (FasterWhisperBackend.model m) (Some w)
               (get_default (args_beam_size (cli_args self)) 5%Z)
               (_language self) (initial_prompt self) with
       | inl _ => lit ""
       | inr (Generator segments None, _) =>
           joined (map segment_text segments)
       | inr (Generator _ (Some _), _) => lit ""
       end].
Proof.
  intros Hb Hw Hr. rewrite (stop_reply self Hw Hr), Hb.
  cbn [written transcribe FasterWhisperBackend.as_backend].
  unfold FasterWhisperBackend.transcribe, transcription_kwargs.
  cbn [kw_language kw_initial_prompt kw_beam_size].
  destruct (model_transcribe _ _ _ _ _) as [e|[[ys [e|]] info]];
    [reflexivity | reflexivity |].
  now rewrite text_of_segments.
Qed.

Lemma faster_whisper_session_transcript_witness :
  written (handle_event AudioStop
             (example_recording
                (FasterWhisperBackend.as_backend example_fw_backend)))
  = [Transcript (lit "so long")].
Proof.
  exact (@faster_whisper_session_transcript example_fw_backend
           (example_recording
              (FasterWhisperBackend.as_backend example_fw_backend))
           example_wave eq_refl eq_refl eq_refl).
Defined.

(** X13.  The MLX and OpenAI backends do not use the beam size, and an
    empty language or prompt is to them no language or prompt at all:
    two calls that differ only in these respects give the same
    result. *)
Theorem beam_size_is_ignored (mlx : MLXWhisperBackend.t)
    (openai : OpenAIWhisperBackend.t) (audio : audio_file)
    (kwargs kwargs' : transcribe_kwargs) :
  if_truthy (kw_language kwargs) = if_truthy (kw_language kwargs') ->
  if_truthy (kw_initial_prompt kwargs)
  = if_truthy (kw_initial_prompt kwargs') ->
  MLXWhisperBackend.transcribe mlx audio kwargs
  = MLXWhisperBackend.transcribe mlx audio kwargs'
  /\ OpenAIWhisperBackend.transcribe openai audio kwargs
     = OpenAIWhisperBackend.transcribe openai audio kwargs'.
Proof.
  intros Hl Hp.
  unfold MLXWhisperBackend.transcribe, MLXWhisperBackend.transcribe_options,
    OpenAIWhisperBackend.transcribe,
    OpenAIWhisperBackend.transcribe_kwargs_of.
  rewrite Hl, Hp. split; reflexivity.
Qed.

Lemma beam_size_is_ignored_witness :
  MLXWhisperBackend.transcribe example_mlx_segments_backend
    (Some example_wave) (mkKwargs (Some (lit "")) None (Some 1%Z))
  = MLXWhisperBackend.transcribe example_mlx_segments_backend
      (Some example_wave) (mkKwargs None (Some (lit "")) (Some 9%Z)).
Proof.
  exact (proj1 (@beam_size_is_ignored example_mlx_segments_backend
                  example_openai_backend (Some example_wave)
                  (mkKwargs (Some (lit "")) None (Some 1%Z))
                  (mkKwargs None (Some (lit "")) (Some 9%Z))
                  eq_refl eq_refl)).
Defined.

(** ** Construction *)

Lemma in_list_true (x : str) (l : list str) : in_list x l = true <-> In x l.
Proof.
  unfold in_list. rewrite existsb_exists. split.
  - intros [y [Hy E]]. apply str_eqb_eq in E. now subst.
  - intros H. exists x. split; [exact H | apply str_eqb_refl].
Qed.

(** X14.  Whatever model name it is asked for, a constructed OpenAI
    backend asks the API for "whisper-1". *)
Theorem openai_model_is_whisper_1 (env : Env) (model_name : str)
    (kwargs : backend_kwargs) (self : OpenAIWhisperBackend.t) :
  OpenAIWhisperBackend.__init__ env model_name kwargs = Return self ->
  OpenAIWhisperBackend.model_name self = lit "whisper-1".
Proof.
  unfold OpenAIWhisperBackend.__init__.
  destruct (import_openai env); [|discriminate].
  destruct (por _ _) as [[|c key]|]; try discriminate.
  destruct (in_list model_name OpenAIWhisperBackend.valid_models) eqn:E;
    cbn [negb]; intros H; injection H as <-; [|reflexivity].
  apply in_list_true in E. destruct E as [<- | []]. reflexivity.
Qed.

Lemma openai_model_is_whisper_1_witness :
  OpenAIWhisperBackend.model_name example_openai_backend = lit "whisper-1".
Proof.
  exact (@openai_model_is_whisper_1 example_openai_env (lit "gpt-4o")
           no_backend_kwargs example_openai_backend eq_refl).
Defined.

(** X15.  The model path of a constructed MLX backend always lies in
    the "mlx-community/" namespace: a name given in that namespace is
    kept, one of the five sizes is expanded to
    "mlx-community/whisper-<size>-mlx", and anything else gives the tiny
    model.  The keyword arguments play no part. *)
Theorem mlx_model_path_namespace (env : Env) (model_name : str)
    (kwargs : backend_kwargs) (self : MLXWhisperBackend.t) :
  MLXWhisperBackend.__init__ env model_name kwargs = Return self ->
  startswith (MLXWhisperBackend.model_path self) (lit "mlx-community/") = true
  /\ (startswith model_name (lit "mlx-community/") = true ->
      MLXWhisperBackend.model_path self = model_name)
  /\ (In model_name MLXWhisperBackend.known_sizes ->
      MLXWhisperBackend.model_path self
      = lit "mlx-community/whisper-" ++ model_name ++ lit "-mlx")
  /\ (forall kwargs',
        MLXWhisperBackend.__init__ env model_name kwargs' = Return self).
Proof.
  unfold MLXWhisperBackend.__init__.
  destruct (import_mlx_whisper env) as [m|]; [|discriminate].
  destruct (startswith model_name (lit "mlx-community/")) eqn:Es;
    [|destruct (in_list model_name MLXWhisperBackend.known_sizes) eqn:Ek];
    cbv zeta; intros H; injection H as <-;
    (split; [|split; [|split]]); try reflexivity; try discriminate.
  - exact Es.
  - intros Hin. exfalso.
    cbn in Hin. decompose [or] Hin; subst; try discriminate Es.
    contradiction.
  - intros Hin. apply in_list_true in Hin. congruence.
Qed.

Lemma mlx_model_path_namespace_witness :
  MLXWhisperBackend.model_path
    (MLXWhisperBackend.mk example_mlx (lit "mlx-community/whisper-small-mlx"))
  = lit "mlx-community/whisper-" ++ lit "small" ++ lit "-mlx".
Proof.
  apply (proj1 (proj2 (proj2
           (@mlx_model_path_namespace example_env (lit "small")
              no_backend_kwargs
              (MLXWhisperBackend.mk example_mlx
                 (lit "mlx-community/whisper-small-mlx"))
              eq_refl)))).
  cbn. auto.
Defined.

(** X16.  The version an OpenAI backend reports, in the environment it
    was constructed in.  Construction needs the [openai] package, so the
    import cannot be what fails: the version is "openai-api-" followed
    by the version of the package when the package has a
    [__version__], and "openai-api-unknown" when it has none. *)
Theorem openai_version_after_construction (env : Env) (model_name : str)
    (kwargs : backend_kwargs) (self : OpenAIWhisperBackend.t) :
  OpenAIWhisperBackend.__init__ env model_name kwargs = Return self ->
  exists openai,
    import_openai env = Some openai
    /\ OpenAIWhisperBackend.get_version env self
       = match openai___version__ openai with
         | Some version => lit "openai-api-" ++ version
         | None => lit "openai-api-unknown"
         end.
Proof.
  unfold OpenAIWhisperBackend.__init__, OpenAIWhisperBackend.get_version.
  destruct (import_openai env) as [openai|] eqn:E; [|discriminate].
  intros _. exists openai. split; reflexivity.
Qed.

Lemma openai_version_after_construction_witness :
  exists openai,
    import_openai
      (mkEnv (lit "x86_64") (lit "Linux") None None false
             (Some (mkOpenaiModule (OpenAI example_openai) None))
             (Some (lit "sk-key")))
    = Some openai
    /\ OpenAIWhisperBackend.get_version
         (mkEnv (lit "x86_64") (lit "Linux") None None false
                (Some (mkOpenaiModule (OpenAI example_openai) None))
                (Some (lit "sk-key")))
         example_openai_backend
       = match openai___version__ openai with
         | Some version => lit "openai-api-" ++ version
         | None => lit "openai-api-unknown"
         end.
Proof.
  exact (@openai_version_after_construction
           (mkEnv (lit "x86_64") (lit "Linux") None None false
                  (Some (mkOpenaiModule (OpenAI example_openai) None))
                  (Some (lit "sk-key")))
           (lit "whisper-1") no_backend_kwargs example_openai_backend
           eq_refl).
Defined.

(** ** The registry *)

Lemma str_eqb_sym (a b : str) : str_eqb a b = str_eqb b a.
Proof.
  destruct (str_eqb a b) eqn:E.
  - apply str_eqb_eq in E. subst. now rewrite str_eqb_refl.
  - apply str_eqb_neq in E. symmetry. apply str_eqb_neq. congruence.
Qed.

Lemma lookup_none_iff (d : WhisperBackendFactory.registry) (name : str) :
  WhisperBackendFactory.lookup d name = None
  <-> in_list name (WhisperBackendFactory.get_available_backends d) = false.
Proof.
  unfold in_list, WhisperBackendFactory.get_available_backends.
  induction d as [|[k v] d IH]; cbn [WhisperBackendFactory.lookup map existsb fst].
  - split; reflexivity.
  - rewrite (str_eqb_sym name k). destruct (str_eqb k name); cbn [orb].
    + split; discriminate.
    + exact IH.
Qed.

(** X17.  Registering a backend class under a name makes
    [create_backend] use that class for that name, whatever was
    registered there before, and changes nothing for any other
    registered name.  A
    name that was already registered keeps its place in the list of
    available backends; a new one comes last. *)
Theorem register_then_create (d : WhisperBackendFactory.registry)
    (name : str) (cls : WhisperBackendFactory.backend_class) :
  (forall model_name kwargs,
      WhisperBackendFactory.create_backend
        (WhisperBackendFactory.register_backend d name cls)
        name model_name kwargs
      = cls model_name kwargs)
  /\ (forall other model_name kwargs,
        other <> name ->
        WhisperBackendFactory.lookup d other <> None ->
        WhisperBackendFactory.create_backend
          (WhisperBackendFactory.register_backend d name cls)
          other model_name kwargs
        = WhisperBackendFactory.create_backend d other model_name kwargs)
  /\ WhisperBackendFactory.get_available_backends
       (WhisperBackendFactory.register_backend d name cls)
     = if in_list name (WhisperBackendFactory.get_available_backends d)
       then WhisperBackendFactory.get_available_backends d
       else WhisperBackendFactory.get_available_backends d ++ [name].
Proof.
  split; [|split].
  - intros model_name kwargs. unfold WhisperBackendFactory.create_backend.
    now rewrite register_backend_lookup.
  - intros other model_name kwargs Hne Hin.
    unfold WhisperBackendFactory.create_backend.
    assert (E : WhisperBackendFactory.lookup
                  (WhisperBackendFactory.register_backend d name cls) other
                = WhisperBackendFactory.lookup d other).
    { clear Hin. induction d as [|[k v] d IH];
        cbn [WhisperBackendFactory.register_backend
             WhisperBackendFactory.lookup].
      - apply str_eqb_neq in Hne. rewrite str_eqb_sym in Hne. now rewrite Hne.
      - destruct (str_eqb k name) eqn:Ek;
          cbn [WhisperBackendFactory.lookup].
        + apply str_eqb_eq in Ek. subst k.
          destruct (str_eqb name other) eqn:Eo; [|reflexivity].
          apply str_eqb_eq in Eo. congruence.
        + destruct (str_eqb k other); [reflexivity | exact IH]. }
    rewrite E. destruct (WhisperBackendFactory.lookup d other); congruence.
  - unfold in_list, WhisperBackendFactory.get_available_backends.
    induction d as [|[k v] d IH];
      cbn [WhisperBackendFactory.register_backend map existsb fst app].
    + reflexivity.
    + rewrite (str_eqb_sym name k).
      destruct (str_eqb k name) eqn:Ek; cbn [orb map fst].
      * reflexivity.
      * rewrite IH. destruct (existsb (str_eqb name) (map fst d)); reflexivity.
Qed.

Lemma register_then_create_witness :
  WhisperBackendFactory.create_backend
    (WhisperBackendFactory.register_backend
       (WhisperBackendFactory._backends example_env) (lit "mlx-whisper")
       (fun _ _ => Return (mock_backend [])))
    (lit "faster-whisper") (lit "tiny") no_backend_kwargs
  = WhisperBackendFactory.create_backend
      (WhisperBackendFactory._backends example_env)
      (lit "faster-whisper") (lit "tiny") no_backend_kwargs.
Proof.
  apply (proj1 (proj2 (@register_then_create
                         (WhisperBackendFactory._backends example_env)
                         (lit "mlx-whisper")
                         (fun _ _ => Return (mock_backend []))))).
  - discriminate.
  - discriminate.
Defined.

(** X18.  Asked for a name that is not registered, [create_backend]
    raises [ValueError] and calls no constructor; its message names the
    backend asked for and lists the registered names, in order,
    separated by ", ". *)
Theorem create_backend_unknown_name (d : WhisperBackendFactory.registry)
    (backend_name model_name : str) (kwargs : backend_kwargs) :
  in_list backend_name (WhisperBackendFactory.get_available_backends d)
  = false ->
  WhisperBackendFactory.create_backend d backend_name model_name kwargs
  = Raise (ValueError
             (lit "Unknown backend '" ++ backend_name
                ++ lit "'. Available: "
                ++ join (lit ", ")
                     (WhisperBackendFactory.get_available_backends d))).
Proof.
  intros H. apply lookup_none_iff in H.
  unfold WhisperBackendFactory.create_backend. now rewrite H.
Qed.

Lemma create_backend_unknown_name_witness :
  WhisperBackendFactory.create_backend
    (WhisperBackendFactory._backends example_env)
    (lit "vosk") (lit "tiny") no_backend_kwargs
  = Raise (ValueError
             (lit "Unknown backend 'vosk'. Available: faster-whisper, mlx-whisper, openai-whisper")).
Proof.
  exact (@create_backend_unknown_name
           (WhisperBackendFactory._backends example_env)
           (lit "vosk") (lit "tiny") no_backend_kwargs eq_refl).
Defined.

(** ** Detection and construction *)

Lemma detect_inv (env : Env) (name : str) :
  detect_optimal_backend env = Return name ->
  (name = lit "mlx-whisper" /\ is_some (import_mlx_whisper env) = true)
  \/ (name = lit "faster-whisper"
      /\ is_some (import_faster_whisper env) = true)
  \/ (name = lit "openai-whisper" /\ import_whisper env = true).
Proof.
  rewrite detect_cases.
  destruct (is_apple_silicon _ _), (is_some (import_mlx_whisper env)),
    (is_some (import_faster_whisper env)), (import_whisper env);
    cbn [andb]; intros H; try discriminate H; injection H as <-; auto.
Qed.

(** X19.  The backend that detection selects is always a registered
    one, so that creating it never fails for an unknown name.  If it is
    "mlx-whisper", creating it succeeds whatever the model name and the
    options; if it is "faster-whisper", creating it fails only when the
    engine's own model loading raises, with that exception. *)
Theorem detected_backend_can_be_created (env : Env) (name : str) :
  detect_optimal_backend env = Return name ->
  in_list name
    (WhisperBackendFactory.get_available_backends
       (WhisperBackendFactory._backends env)) = true
  /\ (name = lit "mlx-whisper" ->
      forall model_name kwargs,
      exists self,
        WhisperBackendFactory.create_backend
          (WhisperBackendFactory._backends env) name model_name kwargs
        = Return (MLXWhisperBackend.as_backend self))
  /\ (name = lit "faster-whisper" ->
      forall model_name kwargs,
      exists faster_whisper,
        import_faster_whisper env = Some faster_whisper
        /\ WhisperBackendFactory.create_backend
             (WhisperBackendFactory._backends env) name model_name kwargs
           = match WhisperModel faster_whisper model_name
                     (bk_download_dir kwargs)
                     (get_default (bk_device kwargs) (lit "cpu"))
                     (get_default (bk_compute_type kwargs) (lit "default"))
             with
             | inl e => Raise e
             | inr m =>
                 Return (FasterWhisperBackend.as_backend
                           (FasterWhisperBackend.mk m faster_whisper))
             end).
Proof.
  intros H. destruct (detect_inv env H) as [[-> Hi] | [[-> Hi] | [-> Hi]]].
  - split; [reflexivity|]. split; [|discriminate].
    intros _ model_name kwargs.
    unfold WhisperBackendFactory.create_backend.
    cbn [WhisperBackendFactory.lookup WhisperBackendFactory._backends].
    change (str_eqb (lit "faster-whisper") (lit "mlx-whisper")) with false.
    rewrite str_eqb_refl. cbv iota.
    unfold WhisperBackendFactory.construct, MLXWhisperBackend.__init__.
    destruct (import_mlx_whisper env) as [m|]; [|discriminate]. eauto.
  - split; [reflexivity|]. split; [discriminate|].
    intros _ model_name kwargs.
    unfold WhisperBackendFactory.create_backend.
    cbn [WhisperBackendFactory.lookup WhisperBackendFactory._backends].
    rewrite str_eqb_refl. cbv iota.
    unfold WhisperBackendFactory.construct, FasterWhisperBackend.__init__.
    destruct (import_faster_whisper env) as [fw|]; [|discriminate].
    exists fw. split; [reflexivity|].
    destruct (WhisperModel fw _ _ _ _); reflexivity.
  - split; [reflexivity|]. split; discriminate.
Qed.

Lemma detected_backend_can_be_created_witness :
  exists self,
    WhisperBackendFactory.create_backend
      (WhisperBackendFactory._backends example_env) (lit "mlx-whisper")
      (lit "no-such-model") no_backend_kwargs
    = Return (MLXWhisperBackend.as_backend self).
Proof.
  exact (proj1 (proj2 (@detected_backend_can_be_created example_env
                         (lit "mlx-whisper") eq_refl))
           eq_refl (lit "no-such-model") no_backend_kwargs).
Defined.

(** ** What [main] settles before it creates the backend *)

Lemma default_download_dir_inv (args a1 : Namespace) :
  default_download_dir args = Return a1 ->
  exists d,
    a1 = set_args_download_dir args (Some d)
    /\ (if otruthy (args_download_dir args)
        then args_download_dir args = Some d
        else exists rest, args_data_dir args = d :: rest).
Proof.
  destruct args as [bk md dd dl dev lang ct beam ip].
  unfold default_download_dir, set_args_download_dir. simpl.
  destruct dl as [[|c l]|]; simpl.
  - destruct dd as [|d rest]; [discriminate|].
    intros H. injection H as <-. eauto.
  - intros H. injection H as <-. eauto.
  - destruct dd as [|d rest]; [discriminate|].
    intros H. injection H as <-. eauto.
Qed.

Lemma auto_backend_inv (env : Env) (a1 a2 : Namespace) :
  auto_backend env a1 = Return a2 ->
  exists b,
    a2 = set_args_backend a1 b
    /\ (if str_eqb (args_backend a1) (lit "auto")
        then detect_optimal_backend env = Return b
        else b = args_backend a1).
Proof.
  unfold auto_backend. destruct (str_eqb (args_backend a1) (lit "auto")).
  - destruct (detect_optimal_backend env) as [e|b]; [discriminate|].
    intros H. injection H as <-. eauto.
  - intros H. injection H as <-. exists (args_backend a1).
    split; [|reflexivity]. destruct a1; reflexivity.
Qed.

Lemma auto_model_inv (is_arm : bool) (a : Namespace) :
  exists m, auto_model is_arm a = set_args_model a m.
Proof.
  unfold auto_model. destruct (str_eqb (args_model a) (lit "auto")).
  - destruct (str_eqb (args_backend a) (lit "mlx-whisper")); eauto.
  - exists (args_model a). destruct a; reflexivity.
Qed.

Lemma auto_beam_size_inv (is_arm : bool) (a a4 : Namespace) :
  auto_beam_size is_arm a = Return a4 ->
  exists b,
    args_beam_size a = Some b
    /\ a4 = set_args_beam_size a
              (Some (if (b <=? 0)%Z then if is_arm then 1 else 5 else b)%Z).
Proof.
  unfold auto_beam_size. destruct (args_beam_size a) as [b|] eqn:E;
    [|discriminate].
  intros H. exists b. split; [reflexivity|].
  destruct (b <=? 0)%Z; injection H as <-; [reflexivity|].
  destruct a; simpl in E; subst; reflexivity.
Qed.

Lemma resolve_model_inv (a : Namespace) :
  exists m, snd (resolve_model a) = set_args_model a m.
Proof.
  unfold resolve_model.
  destruct (str_eqb (args_backend a) (lit "faster-whisper"));
    [destruct (re_match_int8 (args_model a))|]; simpl; eauto;
    exists (args_model a); destruct a; reflexivity.
Qed.

Lemma auto_language_inv (a : Namespace) :
  auto_language a
  = set_args_language a
      match args_language a with
      | Some l => if str_eqb l (lit "auto") then None else Some l
      | None => None
      end.
Proof.
  unfold auto_language. destruct a as [bk md dd dl dev [l|] ct beam ip];
    simpl; [|reflexivity].
  destruct (str_eqb l _); reflexivity.
Qed.

(** The arguments at the end of [resolve_args], field by field. *)
Lemma resolve_args_shape (env : Env) (parsed args : Namespace)
    (model_name : str) :
  resolve_args env parsed = Return (model_name, args) ->
  exists backend_name model d b,
    (if str_eqb (args_backend parsed) (lit "auto")
     then detect_optimal_backend env = Return backend_name
     else backend_name = args_backend parsed)
    /\ (if otruthy (args_download_dir parsed)
        then args_download_dir parsed = Some d
        else exists rest, args_data_dir parsed = d :: rest)
    /\ args_beam_size parsed = Some b
    /\ args
       = mkNamespace backend_name model (args_data_dir parsed) (Some d)
           (args_device parsed)
           (match args_language parsed with
            | Some l => if str_eqb l (lit "auto") then None else Some l
            | None => None
            end)
           (args_compute_type parsed)
           (Some (if (b <=? 0)%Z
                  then if is_arm_machine (lower (platform_machine env))
                       then 1 else 5
                  else b)%Z)
           (args_initial_prompt parsed).
Proof.
  unfold resolve_args.
  destruct (default_download_dir parsed) as [e|a1] eqn:H1; [discriminate|].
  destruct (auto_backend env a1) as [e|a2] eqn:H2; [discriminate|].
  set (arm := is_arm_machine (lower (platform_machine env))).
  destruct (auto_beam_size arm (auto_model arm a2)) as [e|a4] eqn:H4;
    [discriminate|].
  destruct (resolve_model a4) as [n a5] eqn:H5.
  intros H. injection H as _ <-.
  apply default_download_dir_inv in H1 as [d [-> Hd]].
  apply auto_backend_inv in H2 as [bk [-> Hbk]].
  destruct (auto_model_inv arm
              (set_args_backend (set_args_download_dir parsed (Some d)) bk))
    as [m1 Hm1].
  rewrite Hm1 in H4.
  apply auto_beam_size_inv in H4 as [b [Hb ->]].
  destruct (resolve_model_inv
              (set_args_beam_size
                 (set_args_model
                    (set_args_backend
                       (set_args_download_dir parsed (Some d)) bk) m1)
                 (Some (if (b <=? 0)%Z then if arm then 1 else 5 else b)%Z)))
    as [m2 Hm2].
  rewrite H5 in Hm2. cbn [snd] in Hm2. subst a5.
  rewrite auto_language_inv.
  exists bk, m2, d, b.
  destruct parsed as [pbk pmd pdd pdl pdev plang pct pbeam pip].
  cbn in Hbk, Hd, Hb |- *. auto.
Qed.

(** X20.  Detection selects "openai-whisper" when the [whisper] package
    can be imported, but the backend registered under that name needs
    the [openai] package and an API key.  When detection selects it and
    either is missing, [main] logs the failure and returns without
    serving. *)
Theorem detected_openai_may_not_load (__version__ : str) (env : Env)
    (parsed args : Namespace) (model_name : str) :
  args_backend parsed = lit "auto" ->
  detect_optimal_backend env = Return (lit "openai-whisper") ->
  import_openai env = None
  \/ otruthy (getenv_OPENAI_API_KEY env) = false ->
  resolve_args env parsed = Return (model_name, args) ->
  main __version__ env parsed = Returned.
Proof.
  intros Hauto Hdet Hmiss Hres.
  destruct (resolve_args_shape env parsed Hres)
    as (bk & m & d & b & Hbk & _ & _ & ->).
  rewrite Hauto, str_eqb_refl, Hdet in Hbk. injection Hbk as <-.
  unfold main. rewrite Hres.
  unfold WhisperBackendFactory.create_backend.
  cbn [args_backend args_model WhisperBackendFactory.lookup
       WhisperBackendFactory._backends].
  change (str_eqb (lit "faster-whisper") (lit "openai-whisper")) with false.
  change (str_eqb (lit "mlx-whisper") (lit "openai-whisper")) with false.
  rewrite str_eqb_refl. cbv iota.
  unfold WhisperBackendFactory.construct, OpenAIWhisperBackend.__init__,
    main_backend_kwargs, por.
  cbn [bk_api_key otruthy].
  destruct (import_openai env) as [openai|]; [|reflexivity].
  destruct Hmiss as [Hmiss | Hmiss]; [discriminate|].
  destruct (getenv_OPENAI_API_KEY env) as [[|c key]|];
    [reflexivity | discriminate | reflexivity].
Qed.

Lemma detected_openai_may_not_load_witness :
  main (lit "1.0.0") whisper_only_env example_parsed = Returned.
Proof.
  apply (@detected_openai_may_not_load (lit "1.0.0") whisper_only_env
           example_parsed
           (mkNamespace (lit "openai-whisper") (lit "base-int8")
              [lit "/data"] (Some (lit "/data")) (lit "cpu")
              (Some (lit "en")) (lit "default") (Some 5%Z) None)
           (lit "base-int8") eq_refl eq_refl).
  - left. reflexivity.
  - reflexivity.
Defined.

(** X21.  The beam size that [main] hands to the sessions is always
    positive: a configured beam size of zero or less is replaced by 1 on
    an ARM-class machine and by 5 on any other; a positive one is
    kept. *)
Theorem beam_size_is_positive (env : Env) (parsed args : Namespace)
    (model_name : str) :
  resolve_args env parsed = Return (model_name, args) ->
  exists configured b,
    args_beam_size parsed = Some configured
    /\ args_beam_size args = Some b
    /\ (0 < b)%Z
    /\ b = (if (configured <=? 0)%Z
            then if is_arm_machine (lower (platform_machine env))
                 then 1 else 5
            else configured)%Z.
Proof.
  intros Hres.
  destruct (resolve_args_shape env parsed Hres)
    as (bk & m & d & b & _ & _ & Hb & ->).
  exists b. eexists. cbn [args_beam_size].
  split; [exact Hb|]. split; [reflexivity|]. split; [|reflexivity].
  destruct (Z.leb_spec b 0); [|assumption].
  destruct (is_arm_machine _); lia.
Qed.

Lemma beam_size_is_positive_witness :
  exists configured b,
    args_beam_size
      (mkNamespace (lit "auto") (lit "auto") [lit "/data"] None (lit "cpu")
                   None (lit "default") (Some 0%Z) None)
    = Some configured
    /\ args_beam_size
         (mkNamespace (lit "mlx-whisper")
            (lit "mlx-community/whisper-tiny-mlx") [lit "/data"]
            (Some (lit "/data")) (lit "cpu") None (lit "default")
            (Some 1%Z) None)
       = Some b
    /\ (0 < b)%Z
    /\ b = (if (configured <=? 0)%Z
            then if is_arm_machine (lower (platform_machine example_env))
                 then 1 else 5
            else configured)%Z.
Proof.
  exact (@beam_size_is_positive example_env
           (mkNamespace (lit "auto") (lit "auto") [lit "/data"] None
              (lit "cpu") None (lit "default") (Some 0%Z) None)
           (mkNamespace (lit "mlx-whisper")
              (lit "mlx-community/whisper-tiny-mlx") [lit "/data"]
              (Some (lit "/data")) (lit "cpu") None (lit "default")
              (Some 1%Z) None)
           (lit "mlx-community/whisper-tiny-mlx") eq_refl).
Defined.

(** X22.  The default language that [main] hands to the sessions is
    never "auto": a configured language "auto" becomes no language, any
    other is kept; and that is the language every new session starts
    with. *)
Theorem default_language_is_never_auto (env : Env) (parsed args : Namespace)
    (model_name : str) :
  resolve_args env parsed = Return (model_name, args) ->
  args_language args <> Some (lit "auto")
  /\ (args_language parsed = Some (lit "auto") -> args_language args = None)
  /\ (args_language parsed <> Some (lit "auto") ->
      args_language args = args_language parsed)
  /\ (forall b info,
        _language (session_handler args b info) = args_language args).
Proof.
  intros Hres.
  destruct (resolve_args_shape env parsed Hres)
    as (bk & m & d & b & _ & _ & _ & ->).
  cbn [args_language].
  destruct (args_language parsed) as [l|]; [|repeat split; congruence].
  destruct (str_eqb l (lit "auto")) eqn:E.
  - apply str_eqb_eq in E. subst l. repeat split; congruence.
  - apply str_eqb_neq in E. repeat split; congruence.
Qed.

Lemma default_language_is_never_auto_witness :
  args_language
    (mkNamespace (lit "mlx-whisper") (lit "mlx-community/whisper-tiny-mlx")
       [lit "/data"] (Some (lit "/data")) (lit "cpu") None (lit "default")
       (Some 5%Z) None)
  = None.
Proof.
  exact (proj1 (proj2
           (@default_language_is_never_auto example_env
              (mkNamespace (lit "auto") (lit "auto") [lit "/data"] None
                 (lit "cpu") (Some (lit "auto")) (lit "default") (Some 5%Z)
                 None)
              (mkNamespace (lit "mlx-whisper")
                 (lit "mlx-community/whisper-tiny-mlx") [lit "/data"]
                 (Some (lit "/data")) (lit "cpu") None (lit "default")
                 (Some 5%Z) None)
              (lit "mlx-community/whisper-tiny-mlx") eq_refl))
           eq_refl).
Defined.

(** X23.  The download directory that [main] hands to the backend is
    the configured one when it is given and not empty, and the first
    data directory otherwise. *)
Theorem download_dir_defaults_to_first_data_dir (env : Env)
    (parsed args : Namespace) (model_name : str) :
  resolve_args env parsed = Return (model_name, args) ->
  exists d,
    bk_download_dir (main_backend_kwargs args) = Some d
    /\ (if otruthy (args_download_dir parsed)
        then args_download_dir parsed = Some d
        else exists rest, args_data_dir parsed = d :: rest).
Proof.
  intros Hres.
  destruct (resolve_args_shape env parsed Hres)
    as (bk & m & d & b & _ & Hd & _ & ->).
  exists d. split; [reflexivity | exact Hd].
Qed.

Lemma download_dir_defaults_to_first_data_dir_witness :
  exists d,
    bk_download_dir (main_backend_kwargs example_started_args) = Some d
    /\ (if otruthy (args_download_dir example_parsed)
        then args_download_dir example_parsed = Some d
        else exists rest, args_data_dir example_parsed = d :: rest).
Proof.
  exact (@download_dir_defaults_to_first_data_dir example_env example_parsed
           example_started_args (lit "mlx-community/whisper-tiny-mlx")
           eq_refl).
Defined.

(** X24.  With a backend named on the command line, detection is not
    consulted: the backend is kept as given, and what [main] settles
    does not depend on which packages are installed, only on the
    machine class. *)
Theorem explicit_backend_skips_detection (env env' : Env)
    (parsed : Namespace) :
  args_backend parsed <> lit "auto" ->
  platform_machine env = platform_machine env' ->
  resolve_args env parsed = resolve_args env' parsed
  /\ forall model_name args,
       resolve_args env parsed = Return (model_name, args) ->
       args_backend args = args_backend parsed.
Proof.
  intros Hne Hm. split.
  - unfold resolve_args.
    destruct (default_download_dir parsed) as [e|a1] eqn:H1; [reflexivity|].
    apply default_download_dir_model in H1 as [_ Hb].
    unfold auto_backend. rewrite Hb.
    apply str_eqb_neq in Hne. rewrite Hne, Hm. reflexivity.
  - intros model_name args Hres.
    destruct (resolve_args_shape env parsed Hres)
      as (bk & m & d & b & Hbk & _ & _ & ->).
    apply str_eqb_neq in Hne. rewrite Hne in Hbk. exact Hbk.
Qed.

Lemma explicit_backend_skips_detection_witness :
  resolve_args example_env example_started_args
  = resolve_args
      (mkEnv (lit "arm64") (lit "Linux") None None false None None)
      example_started_args.
Proof.
  apply (@explicit_backend_skips_detection example_env
           (mkEnv (lit "arm64") (lit "Linux") None None false None None)
           example_started_args).
  - discriminate.
  - reflexivity.
Defined.

(** ** Quantized model names for faster-whisper *)

Lemma matches_int8_inv (model size : str) :
  matches_int8 model size = true ->
  exists sep tail,
    (sep = lit "." \/ sep = lit "-")
    /\ (tail = [] \/ tail = [10])
    /\ model = size ++ sep ++ lit "int8" ++ tail.
Proof.
  unfold matches_int8. intros H.
  apply existsb_exists in H as [sep [Hsep H]].
  apply existsb_exists in H as [tail [Htail H]].
  apply str_eqb_eq in H. exists sep, tail.
  split; [|split; [|exact H]].
  - destruct Hsep as [<- | [<- | []]]; auto.
  - destruct Htail as [<- | [<- | []]]; auto.
Qed.

(** X25.  The pattern that recognises a quantized model name matches
    exactly the names made of one of the sizes tiny, base, small and
    medium, a dot or a dash, and "int8", possibly followed by one
    newline; the group it gives is the size. *)
Theorem quantized_name_pattern (model size : str) :
  re_match_int8 model = Some size
  <-> In size int8_sizes
      /\ exists sep tail,
           (sep = lit "." \/ sep = lit "-")
           /\ (tail = [] \/ tail = [10])
           /\ model = size ++ sep ++ lit "int8" ++ tail.
Proof.
  unfold re_match_int8. split.
  - intros H. apply find_some in H as [Hin Hm].
    split; [exact Hin | now apply matches_int8_inv].
  - intros [Hin (sep & tail & Hsep & Htail & ->)].
    cbn in Hin.
    decompose [or] Hin; subst; try contradiction;
      destruct Hsep as [-> | ->]; destruct Htail as [-> | ->]; reflexivity.
Qed.

Lemma quantized_name_inv (model size : str) :
  re_match_int8 model = Some size -> In size int8_sizes.
Proof.
  unfold re_match_int8. intros H. now apply find_some in H.
Qed.

(** X26.  For the faster-whisper backend a quantized model name is
    resolved: the model advertised is "<size>-int8" (with a dash, also
    when the name was given with a dot) and the model asked of the
    engine is "rhasspy/faster-whisper-<size>-int8".  Any other name, and
    any name for another backend, is left as it is.  Resolving what has
    been resolved changes nothing more. *)
Theorem quantized_model_resolution (args : Namespace) :
  (forall size,
      args_backend args = lit "faster-whisper" ->
      re_match_int8 (args_model args) = Some size ->
      resolve_model args
      = (size ++ lit "-int8",
         set_args_model args
           (lit "rhasspy/faster-whisper-" ++ size ++ lit "-int8")))
  /\ (args_backend args <> lit "faster-whisper"
      \/ re_match_int8 (args_model args) = None ->
      fst (resolve_model args) = args_model args
      /\ snd (resolve_model args) = args)
  /\ snd (resolve_model (snd (resolve_model args)))
     = snd (resolve_model args).
Proof.
  split; [|split].
  - intros size Hb Hm. unfold resolve_model.
    now rewrite Hb, str_eqb_refl, Hm.
  - intros H. unfold resolve_model.
    destruct (str_eqb (args_backend args) (lit "faster-whisper")) eqn:E;
      [|auto].
    destruct H as [H | H]; [apply str_eqb_eq in E; contradiction|].
    now rewrite H.
  - destruct (str_eqb (args_backend args) (lit "faster-whisper")) eqn:E.
    + destruct (re_match_int8 (args_model args)) as [size|] eqn:Hm.
      * assert (R : resolve_model args
                    = (size ++ lit "-int8",
                       set_args_model args
                         (lit "rhasspy/faster-whisper-" ++ size
                            ++ lit "-int8")))
          by (unfold resolve_model; now rewrite E, Hm).
        rewrite R. cbn [snd]. unfold resolve_model.
        cbn [args_backend set_args_model args_model]. rewrite E.
        apply quantized_name_inv in Hm as Hin.
        cbn in Hin. decompose [or] Hin; subst; try contradiction;
          reflexivity.
      * assert (R : resolve_model args = (args_model args, args))
          by (unfold resolve_model; now rewrite E, Hm).
        rewrite R. cbn [snd]. now rewrite R.
    + assert (R : resolve_model args = (args_model args, args))
        by (unfold resolve_model; now rewrite E).
      rewrite R. cbn [snd]. now rewrite R.
Qed.

Lemma quantized_model_resolution_witness :
  resolve_model
    (mkNamespace (lit "faster-whisper") (lit "small.int8") [lit "/data"]
       None (lit "cpu") None (lit "default") (Some 5%Z) None)
  = (lit "small" ++ lit "-int8",
     set_args_model
       (mkNamespace (lit "faster-whisper") (lit "small.int8") [lit "/data"]
          None (lit "cpu") None (lit "default") (Some 5%Z) None)
       (lit "rhasspy/faster-whisper-" ++ lit "small" ++ lit "-int8")).
Proof.
  exact (proj1 (quantized_model_resolution
                  (mkNamespace (lit "faster-whisper") (lit "small.int8")
                     [lit "/data"] None (lit "cpu") None (lit "default")
                     (Some 5%Z) None))
           (lit "small") eq_refl eq_refl).
Defined.
